(** * ChromaPDF: the colour transform, the batch run and the PDF assembly

    A shallow embedding of
    - [src/services/localImageService.ts] ([hexToRgb], [colorizeImage]),
    - [src/utils/pdfHelpers.ts] ([renderPageToImage]),
    - [src/App.tsx] ([handleColorizeAll], [handleDownloadPDF]),
    and the properties the specification states about them.

    Conventions of the embedding.
    - A JavaScript [number] is an exact rational ([Q]): [+], [-], [*], [/]
      and the comparisons are the exact ones, the rounding of binary64 is
      not modelled.  [Math.floor] and [Math.round] return integers ([Z]).
      The last section evaluates the arguments of [Math.floor] in IEEE
      binary64 and compares the results with the exact ones: they agree on
      every position of the boldness slider, and differ for a few other
      integers.
    - [Math.pow] is left to the implementation by ECMAScript; it is a
      parameter [Math_pow] of the transform, and the few facts used about
      it are explicit hypotheses.
    - A [Uint8ClampedArray] is a list of integers; a store clamps to 0..255.
    - The browser (image decoding, canvas, PNG encoding), pdf.js and the
      document writer are outside the repository: they are parameters or
      small models, introduced where they are used. *)

From Stdlib Require Import ZArith QArith Qround Qminmax Qpower Lqa Lia String Ascii List Bool.
From Stdlib Require Import Qabs Floats Uint63.
From Stdlib Require DecimalString DecimalNat.
From stdpp Require Import base option list gmap sorting.
Import ListNotations.

(** * Part I: the model *)

(** ** Numbers *)

(** [x < y] on numbers, as a boolean. *)
Definition Qltb (x y : Q) : bool :=
  (Qnum x * QDen y <? Qnum y * QDen x)%Z.

(** [Math.floor]. *)
Definition Math_floor (x : Q) : Z := Qfloor x.

(** [Math.round]: the closest integer, a tie going to the larger one. *)
Definition Math_round (x : Q) : Z := Qfloor (x + (1 # 2)).

(** Storing a number into an element of a [Uint8ClampedArray].  The code
    only ever stores the integers that [Math.round] returns. *)
Definition toUint8Clamp (z : Z) : Z := Z.max 0 (Z.min 255 z).

(** ** [hexToRgb] (localImageService.ts, lines 8-15) *)

Record RgbColor := { rgb_r : Z; rgb_g : Z; rgb_b : Z }.

(** The class [\d]. *)
Definition is_digit (c : ascii) : bool :=
  let n := nat_of_ascii c in (48 <=? n)%nat && (n <=? 57)%nat.

(** The class [[a-f]] under the flag [i]: the letters [a]..[f] in either
    case.  (Without the flag [u] no character outside ASCII is folded to an
    ASCII letter.) *)
Definition is_a_to_f (c : ascii) : bool :=
  let n := nat_of_ascii c in
  ((97 <=? n)%nat && (n <=? 102)%nat) || ((65 <=? n)%nat && (n <=? 70)%nat).

(** The class [[a-f\d]] of the regular expression. *)
Definition hex_class (c : ascii) : bool := is_a_to_f c || is_digit c.

(** The value of a digit in radix 16, for [parseInt]. *)
Definition digit_value (c : ascii) : option Z :=
  let n := Z.of_nat (nat_of_ascii c) in
  if is_digit c then Some (n - 48)%Z
  else if ((97 <=? nat_of_ascii c)%nat && (nat_of_ascii c <=? 102)%nat) then Some (n - 87)%Z
  else if ((65 <=? nat_of_ascii c)%nat && (nat_of_ascii c <=? 70)%nat) then Some (n - 55)%Z
  else None.

Fixpoint parse_digits (acc : Z) (s : string) : Z :=
  match s with
  | EmptyString => acc
  | String c s' =>
      match digit_value c with
      | Some d => parse_digits (16 * acc + d)%Z s'
      | None => acc
      end
  end.

(** [parseInt(s, 16)] for a string that starts with a hexadecimal digit: the
    value of its longest prefix of digits.  The other branches of [parseInt]
    (leading white space, a sign, the prefix [0x], the result [NaN]) need a
    first character that the regular expression keeps out of a capture. *)
Definition parseInt16 (s : string) : Z := parse_digits 0 s.

(** The optional [#] of [/^#?.../]. *)
Definition drop_hash (hex : string) : string :=
  match hex with
  | String "#"%char rest => rest
  | _ => hex
  end.

(** [([a-f\d]{2})([a-f\d]{2})([a-f\d]{2})$]: exactly six characters of the
    class, captured two by two. *)
Definition match_six (body : string) : option (string * string * string) :=
  match body with
  | String c1 (String c2 (String c3 (String c4 (String c5 (String c6 EmptyString))))) =>
      if forallb hex_class [c1; c2; c3; c4; c5; c6]
      then Some (String c1 (String c2 EmptyString),
                 String c3 (String c4 EmptyString),
                 String c5 (String c6 EmptyString))
      else None
  | _ => None
  end.

(** [/^#?([a-f\d]{2})([a-f\d]{2})([a-f\d]{2})$/i.exec(hex)]: the three
    captures, or [None] for [null].  When the string starts with [#] and the
    rest does not match, the matcher backtracks to an empty [#?]; then [#]
    itself has to be in [[a-f\d]], and it is not: nothing is found that way. *)
Definition hexRegex_exec (hex : string) : option (string * string * string) :=
  match_six (drop_hash hex).

Definition hexToRgb (hex : string) : RgbColor :=
  match hexRegex_exec hex with
  | Some (g1, g2, g3) =>
      {| rgb_r := parseInt16 g1; rgb_g := parseInt16 g2; rgb_b := parseInt16 g3 |}
  | None => {| rgb_r := 0; rgb_g := 0; rgb_b := 0 |}
  end.

(** ** The pixel transform of [colorizeImage] (lines 57-92) *)

(** Lines 57-59: the parameters derived from the boldness. *)
Definition blackPoint (boldness : Q) : Z :=
  Math_floor ((boldness / 100) * 200)%Q.

Definition whitePoint (boldness : Q) : Z :=
  (255 - Math_floor (((100 - boldness) / 100) * 10)%Q)%Z.

Definition gamma (boldness : Q) : Q := (1 + (boldness / 100) * 3)%Q.

(** One RGBA pixel: four consecutive elements of [imageData.data]. *)
Record Pixel := { px_r : Z; px_g : Z; px_b : Z; px_a : Z }.

(** Line 71. *)
Definition luminance (r g b : Z) : Q :=
  (0.299 * inject_Z r + 0.587 * inject_Z g + 0.114 * inject_Z b)%Q.

(** Line 74: the linear normalisation between the black and white points.
    The division is the one of [Q]; for a boldness in [0,100] the divisor is
    positive ([normalized_divisor_positive]). *)
Definition normalized (boldness lum : Q) : Q :=
  ((lum - inject_Z (blackPoint boldness))
   / (inject_Z (whitePoint boldness) - inject_Z (blackPoint boldness)))%Q.

(** Lines 74-83: the value of [t] that the interpolation uses. *)
Definition blend_factor (Math_pow : Q -> Q -> Q) (boldness : Q) (lum : Q) : Q :=
  let t := normalized boldness lum in
  let t := if Qltb t 0 then 0%Q else t in
  let t := if Qltb 1 t then 1%Q else t in
  if Qltb 0 t && Qltb t 1 then Math_pow t (gamma boldness) else t.

(** Lines 88-90: one channel of the interpolation, stored into the array. *)
Definition blend_channel (c : Z) (t : Q) : Z :=
  toUint8Clamp (Math_round (inject_Z c * (1 - t) + 255 * t)%Q).

(** The body of the loop, lines 62-91.  A pixel with alpha 0 is skipped by
    [continue]: nothing is read further and nothing is stored. *)
Definition colorize_pixel (Math_pow : Q -> Q -> Q) (target : RgbColor)
    (boldness : Q) (px : Pixel) : Pixel :=
  let r := px_r px in
  let g := px_g px in
  let b := px_b px in
  let a := px_a px in
  if (a =? 0)%Z then px
  else
    let t := blend_factor Math_pow boldness (luminance r g b) in
    {| px_r := blend_channel (rgb_r target) t;
       px_g := blend_channel (rgb_g target) t;
       px_b := blend_channel (rgb_b target) t;
       px_a := a |}.

(** The loop [for (let i = 0; i < data.length; i += 4)] over the flat RGBA
    array.  The length of [ImageData.data] is a multiple of 4. *)
Fixpoint colorize_data (Math_pow : Q -> Q -> Q) (target : RgbColor)
    (boldness : Q) (data : list Z) : list Z :=
  match data with
  | r :: g :: b :: a :: rest =>
      let px := colorize_pixel Math_pow target boldness
                  {| px_r := r; px_g := g; px_b := b; px_a := a |} in
      px_r px :: px_g px :: px_b px :: px_a px
        :: colorize_data Math_pow target boldness rest
  | _ => data
  end.

(** The pixel number [k] of a flat RGBA array. *)
Definition pixel_at (data : list Z) (k : nat) : option Pixel :=
  match data !! (4 * k)%nat, data !! (4 * k + 1)%nat,
        data !! (4 * k + 2)%nat, data !! (4 * k + 3)%nat with
  | Some r, Some g, Some b, Some a =>
      Some {| px_r := r; px_g := g; px_b := b; px_a := a |}
  | _, _, _, _ => None
  end.

(** ** The browser around [colorizeImage] *)

Record ImageData := {
  img_width : nat;
  img_height : nat;
  img_data : list Z
}.

(** What happens to a data URL given to [new Image()] and drawn on a fresh
    canvas, up to [getImageData] (lines 27-46). *)
Inductive CanvasOutcome :=
| ImageLoadError                  (* [img.onerror] fires *)
| NoContext                       (* [canvas.getContext('2d')] is null *)
| CanvasException                 (* [drawImage] or [getImageData] throws *)
| Pixels (imageData : ImageData). (* the pixels of the decoded image *)

(** The parts of the host that the code calls and that are not in the
    repository. *)
Record Browser := {
  (** [Math.pow] *)
  Math_pow : Q -> Q -> Q;
  (** decoding a data URL onto a canvas *)
  canvas_load : string -> CanvasOutcome;
  (** [putImageData] then [toDataURL('image/png')]; [None] when it throws *)
  canvas_toDataURL : ImageData -> option string;
  (** whether [document.createElement('canvas').getContext('2d')] gives a
      context in [renderPageToImage] *)
  canvas_context2d : bool
}.

Record ColorizationResult := {
  imageUrl : option string;
  error : option string
}.

(** Lines 47-94 on the decoded pixels: the transform of the whole image. *)
Definition colorize_imageData (Math_pow : Q -> Q -> Q) (targetColorHex : string)
    (boldness : Q) (imageData : ImageData) : ImageData :=
  let target := hexToRgb targetColorHex in
  {| img_width := img_width imageData;
     img_height := img_height imageData;
     img_data := colorize_data Math_pow target boldness (img_data imageData) |}.

(** [colorizeImage] (lines 25-109).  The promise always resolves; its value
    is the result. *)
Definition colorizeImage (br : Browser) (base64Image targetColorHex : string)
    (boldness : Q) : ColorizationResult :=
  match canvas_load br base64Image with
  | ImageLoadError =>
      {| imageUrl := None; error := Some "Failed to load image data."%string |}
  | NoContext =>
      {| imageUrl := None;
         error := Some "Browser Canvas context not available"%string |}
  | CanvasException =>
      {| imageUrl := None;
         error := Some "Failed to process image locally."%string |}
  | Pixels imageData =>
      match canvas_toDataURL br
              (colorize_imageData (Math_pow br) targetColorHex boldness imageData) with
      | Some url => {| imageUrl := Some url; error := None |}
      | None =>
          {| imageUrl := None;
             error := Some "Failed to process image locally."%string |}
      end
  end.

(** ** [renderPageToImage] (pdfHelpers.ts, lines 20-51) *)

(** pdf.js: a page gives its viewport (width, height) at a scale and renders
    itself on a canvas; [None] is a rejected promise. *)
Record PDFPageProxy := {
  getViewport : Q -> Q * Q;
  page_render : Q -> option string
}.

Record PDFDocumentProxy := {
  doc_numPages : nat;
  getPage : nat -> option PDFPageProxy
}.

Record RenderedPage := {
  pageNumber : nat;
  dataUrl : string;
  rendered_width : Q;
  rendered_height : Q
}.

(** [None] is a rejected promise: [getPage] or [render] rejected, or the
    function threw ['Canvas context could not be created']. *)
Definition renderPageToImage (br : Browser) (pdfDoc : PDFDocumentProxy)
    (pageNum : nat) (scale : Q) : option RenderedPage :=
  match getPage pdfDoc pageNum with
  | None => None
  | Some page =>
      let viewport := getViewport page scale in
      if negb (canvas_context2d br) then None
      else
        match page_render page scale with
        | None => None
        | Some url =>
            Some {| pageNumber := pageNum;
                    dataUrl := url;
                    rendered_width := fst viewport;
                    rendered_height := snd viewport |}
        end
  end.

(** ** The state of [App] (App.tsx, lines 20-102) *)

Inductive ColorTheme :=
| theme_black | theme_green | theme_blue | theme_red
| theme_purple | theme_orange | theme_custom.

Definition theme_id (t : ColorTheme) : string :=
  match t with
  | theme_black => "black" | theme_green => "green" | theme_blue => "blue"
  | theme_red => "red" | theme_purple => "purple" | theme_orange => "orange"
  | theme_custom => "custom"
  end.

Definition ColorTheme_eqb (a b : ColorTheme) : bool :=
  match a, b with
  | theme_black, theme_black | theme_green, theme_green
  | theme_blue, theme_blue | theme_red, theme_red
  | theme_purple, theme_purple | theme_orange, theme_orange
  | theme_custom, theme_custom => true
  | _, _ => false
  end.

(** The table [THEMES]: identifier and colour (the display names are not
    used by the handlers). *)
Definition THEMES : list (ColorTheme * string) :=
  [ (theme_black, "#000000"%string);
    (theme_green, "#10B981"%string);
    (theme_blue, "#3B82F6"%string);
    (theme_red, "#EF4444"%string);
    (theme_purple, "#8B5CF6"%string);
    (theme_orange, "#F97316"%string) ].

(** [ColorizedPageData]: one artifact of the page cache. *)
Record ColorizedPageData := {
  data_imageUrl : string;
  data_width : Q;
  data_height : Q
}.

(** The [useState] cells that the two handlers read or write. *)
Record AppState := {
  fileName : option string;
  pdfDoc : option PDFDocumentProxy;
  numPages : nat;
  colorizedPages : gmap nat ColorizedPageData;
  selectedTheme : ColorTheme;
  customColorHex : string;
  resolutionScale : Q;
  boldness : Q;
  marginPercent : Q;
  isProcessing : bool;
  batchProgress : option (nat * nat);
  appError : option string
}.

Definition setIsProcessing (v : bool) (st : AppState) : AppState :=
  {| fileName := fileName st; pdfDoc := pdfDoc st; numPages := numPages st;
     colorizedPages := colorizedPages st; selectedTheme := selectedTheme st;
     customColorHex := customColorHex st; resolutionScale := resolutionScale st;
     boldness := boldness st; marginPercent := marginPercent st;
     isProcessing := v; batchProgress := batchProgress st;
     appError := appError st |}.

Definition setBatchProgress (v : option (nat * nat)) (st : AppState) : AppState :=
  {| fileName := fileName st; pdfDoc := pdfDoc st; numPages := numPages st;
     colorizedPages := colorizedPages st; selectedTheme := selectedTheme st;
     customColorHex := customColorHex st; resolutionScale := resolutionScale st;
     boldness := boldness st; marginPercent := marginPercent st;
     isProcessing := isProcessing st; batchProgress := v;
     appError := appError st |}.

Definition setError (v : option string) (st : AppState) : AppState :=
  {| fileName := fileName st; pdfDoc := pdfDoc st; numPages := numPages st;
     colorizedPages := colorizedPages st; selectedTheme := selectedTheme st;
     customColorHex := customColorHex st; resolutionScale := resolutionScale st;
     boldness := boldness st; marginPercent := marginPercent st;
     isProcessing := isProcessing st; batchProgress := batchProgress st;
     appError := v |}.

Definition setColorizedPages (v : gmap nat ColorizedPageData) (st : AppState)
    : AppState :=
  {| fileName := fileName st; pdfDoc := pdfDoc st; numPages := numPages st;
     colorizedPages := v; selectedTheme := selectedTheme st;
     customColorHex := customColorHex st; resolutionScale := resolutionScale st;
     boldness := boldness st; marginPercent := marginPercent st;
     isProcessing := isProcessing st; batchProgress := batchProgress st;
     appError := appError st |}.

(** [getActiveHexColor] (lines 94-97). *)
Definition getActiveHexColor (st : AppState) : string :=
  if ColorTheme_eqb (selectedTheme st) theme_custom then customColorHex st
  else
    match find (fun t => ColorTheme_eqb (fst t) (selectedTheme st)) THEMES with
    | Some t => if String.eqb (snd t) "" then "#000000"%string else snd t
    | None => "#000000"%string
    end.

(** A JavaScript string in a condition: [undefined] and the empty string
    are false. *)
Definition truthy (s : option string) : option string :=
  match s with
  | Some v => if String.eqb v "" then None else Some v
  | None => None
  end.

(** ** [handleColorizeAll] (App.tsx, lines 187-232) *)

(** A line printed by [console.error]. *)
Inductive ConsoleEntry :=
| PageError (page : nat) (message : string)   (* line 215 *)
| BatchException.                             (* line 227 *)

(** A run of the handler so far: the React state as the calls of the
    setters have left it, the handler's own [newColorizedMap], the states
    that were on display each time the handler was suspended at an [await],
    in order, and the console. *)
Record Run := {
  run_state : AppState;
  newColorizedMap : gmap nat ColorizedPageData;
  run_observed : list AppState;
  run_console : list ConsoleEntry
}.

Definition with_state (f : AppState -> AppState) (run : Run) : Run :=
  {| run_state := f (run_state run);
     newColorizedMap := newColorizedMap run;
     run_observed := run_observed run;
     run_console := run_console run |}.

(** The handler is suspended at an [await]: React shows the current state. *)
Definition suspend (run : Run) : Run :=
  {| run_state := run_state run;
     newColorizedMap := newColorizedMap run;
     run_observed := run_observed run ++ [run_state run];
     run_console := run_console run |}.

Definition console_error (e : ConsoleEntry) (run : Run) : Run :=
  {| run_state := run_state run;
     newColorizedMap := newColorizedMap run;
     run_observed := run_observed run;
     run_console := run_console run ++ [e] |}.

(** Lines 217-222: [newColorizedMap.set(i, ...)], then
    [setColorizedPages(new Map(newColorizedMap))]. *)
Definition store_page (i : nat) (d : ColorizedPageData) (run : Run) : Run :=
  let m := <[i := d]> (newColorizedMap run) in
  {| run_state := setColorizedPages m (run_state run);
     newColorizedMap := m;
     run_observed := run_observed run;
     run_console := run_console run |}.

(** The loop of lines 199-224, for the pages [i], [i+1], ..., [i+n-1]; the
    handler calls it with [i = 1] and [n = numPages].  [cl] is the state
    that the handler's closure captured: [numPages], [resolutionScale],
    [boldness] and the colour are read from it.  The boolean is [false]
    when an exception left the loop. *)
Fixpoint colorizeAll_loop (br : Browser) (cl : AppState)
    (doc : PDFDocumentProxy) (n i : nat) (run : Run) : bool * Run :=
  match n with
  | O => (true, run)
  | S n' =>
      let run := with_state (setBatchProgress (Some (i, numPages cl))) run in
      (* await renderPageToImage(pdfDoc, i, resolutionScale) *)
      let run := suspend run in
      match renderPageToImage br doc i (resolutionScale cl) with
      | None => (false, run)
      | Some rendered =>
          (* await colorizeImage(pageImageBase64, targetHex, boldness) *)
          let run := suspend run in
          let result :=
            colorizeImage br (dataUrl rendered) (getActiveHexColor cl)
              (boldness cl) in
          match truthy (error result), truthy (imageUrl result) with
          | Some e, _ =>
              colorizeAll_loop br cl doc n' (S i)
                (console_error (PageError i e) run)
          | None, Some url =>
              colorizeAll_loop br cl doc n' (S i)
                (store_page i {| data_imageUrl := url;
                                 data_width := rendered_width rendered;
                                 data_height := rendered_height rendered |} run)
          | None, None => colorizeAll_loop br cl doc n' (S i) run
          end
      end
  end.

Definition handleColorizeAll (br : Browser) (st : AppState) : Run :=
  match pdfDoc st with
  | None =>
      {| run_state := st; newColorizedMap := colorizedPages st;
         run_observed := []; run_console := [] |}
  | Some doc =>
      let st1 :=
        setError None
          (setBatchProgress (Some (0%nat, numPages st))
             (setIsProcessing true st)) in
      let run0 :=
        {| run_state := st1; newColorizedMap := colorizedPages st;
           run_observed := []; run_console := [] |} in
      let '(completed, run) := colorizeAll_loop br st doc (numPages st) 1 run0 in
      let run :=
        if completed then run
        else
          console_error BatchException
            (with_state
               (setError (Some "Batch processing stopped due to an error."%string))
               run) in
      (* finally *)
      with_state (fun s => setBatchProgress None (setIsProcessing false s)) run
  end.

(** ** The document writer *)

(** Modelled from the spec: the Document Writer of section 6 (the library
    jsPDF, which is not part of the repository): [newDocument],
    [addPage(doc, width, height)], [placeImage(doc, image, x, y, width,
    height)] on the page added last, and [save]; a freshly constructed
    document has one blank page of the constructor's format. *)
Inductive PageFormat :=
| A4
| Custom (width height : Q).

Record PlacedImage := {
  placed_image : string;
  placed_x : Q;
  placed_y : Q;
  placed_width : Q;
  placed_height : Q
}.

Record PdfPage := {
  page_format : PageFormat;
  page_images : list PlacedImage
}.

(** Modelled from the spec: a document is the list of its pages. *)
Definition Document := list PdfPage.

(** Modelled from the spec: [newDocument], here [new jsPDF({format})]; the
    fresh document has its one blank default page. *)
Definition newDocument (format : PageFormat) : Document :=
  [ {| page_format := format; page_images := [] |} ].

(** Modelled from the spec: [addPage(doc, width, height)], here
    [doc.addPage([width, height])]; the new page is the last one. *)
Definition addPage (width height : Q) (doc : Document) : Document :=
  doc ++ [ {| page_format := Custom width height; page_images := [] |} ].

Definition place_on (im : PlacedImage) (pg : PdfPage) : PdfPage :=
  {| page_format := page_format pg; page_images := page_images pg ++ [im] |}.

(** Modelled from the spec: [placeImage(doc, image, x, y, width, height)],
    here [doc.addImage(imageUrl, 'PNG', x, y, width, height)]: on the
    current page, which is the one added last. *)
Definition addImage (im : PlacedImage) (doc : Document) : Document :=
  match length doc with
  | O => doc
  | S k => alter (place_on im) k doc
  end.

(** Modelled from the spec: the number of pages of the document. *)
Definition getNumberOfPages (doc : Document) : nat := length doc.

(** Modelled from the spec: the deletion of the throwaway default page,
    here [doc.deletePage(n)], pages counted from 1. *)
Definition deletePage (n : nat) (doc : Document) : Document :=
  delete (n - 1)%nat doc.

(** ** [handleDownloadPDF] (App.tsx, lines 235-277) *)

(** The comparator [(a, b) => a[0] - b[0]] is not positive. *)
Definition page_order (a b : nat * ColorizedPageData) : Prop :=
  (fst a <= fst b)%nat.

#[global] Instance page_order_dec : RelDecision page_order :=
  fun a b => decide (fst a <= fst b)%nat.

(** Line 246: the entries of the map, sorted by page number.  The keys of a
    map are distinct, so the result does not depend on the order in which
    the entries come out of the map, nor on the sorting algorithm. *)
Definition sortedPages (pages : gmap nat ColorizedPageData)
    : list (nat * ColorizedPageData) :=
  merge_sort page_order (map_to_list pages).

(** Line 252. *)
Definition marginPx (marginPercent width : Q) : Z :=
  Math_floor (width * (marginPercent / 100))%Q.

(** Lines 248-263: the body of [forEach], for one entry. *)
Definition emit_page (marginPercent : Q) (doc : Document)
    (entry : nat * ColorizedPageData) : Document :=
  let data := snd entry in
  let width := data_width data in
  let height := data_height data in
  let marginPx := marginPx marginPercent width in
  let pageWidth := (width + inject_Z (marginPx * 2))%Q in
  let pageHeight := (height + inject_Z (marginPx * 2))%Q in
  addImage {| placed_image := data_imageUrl data;
              placed_x := inject_Z marginPx;
              placed_y := inject_Z marginPx;
              placed_width := width;
              placed_height := height |}
    (addPage pageWidth pageHeight doc).

Inductive DownloadOutcome :=
| NoDownload                                   (* line 236: [return] *)
| Saved (name : string) (doc : Document).      (* line 271: [doc.save] *)

Definition download_name (st : AppState) : string :=
  let file :=
    match truthy (fileName st) with
    | Some n => n
    | None => "document"%string
    end in
  ("chromapdf_" ++ theme_id (selectedTheme st) ++ "_" ++ file ++ ".pdf")%string.

(** The writer of the model has no failing call, so the [catch] of line 273
    has no counterpart. *)
Definition handleDownloadPDF (st : AppState) : DownloadOutcome :=
  if (size (colorizedPages st) =? 0)%nat then NoDownload
  else
    let doc := newDocument A4 in
    let sorted := sortedPages (colorizedPages st) in
    let doc := fold_left (emit_page (marginPercent st)) sorted doc in
    let totalPages := getNumberOfPages doc in
    let doc := if (length sorted <? totalPages)%nat then deletePage 1 doc else doc in
    Saved (download_name st) doc.

(** ** The transform as the specification words it (section 4.1) *)






(** [n] is [x] rounded to an integer: the closest one, and the larger one
    of two that are equally close. *)
Definition rounds_to (x : Q) (n : Z) : Prop :=
  (inject_Z n - (1 # 2) <= x /\ x < inject_Z n + (1 # 2))%Q.


(** Section 4.4: the output page of one artifact at a margin of [m]
    percent: [marginPx = floor(width * m / 100)], a canvas of
    [(width + 2 marginPx, height + 2 marginPx)], the artifact at
    [(marginPx, marginPx)]. *)
Definition spec_marginPx (m width : Q) : Z := Qfloor (width * m / 100)%Q.

Definition spec_page (m : Q) (d : ColorizedPageData) : PdfPage :=
  let mp := spec_marginPx m (data_width d) in
  {| page_format :=
       Custom (data_width d + inject_Z (2 * mp))%Q
              (data_height d + inject_Z (2 * mp))%Q;
     page_images :=
       [ {| placed_image := data_imageUrl d;
            placed_x := inject_Z mp;
            placed_y := inject_Z mp;
            placed_width := data_width d;
            placed_height := data_height d |} ] |}.

(** Section 4.3: what happens to one page of a batch run. *)
Inductive PageOutcome :=
| RenderFailed                          (* [renderPageToImage] rejected *)
| TransformFailed (message : string)    (* [colorizeImage] gave an error *)
| Colorized (d : ColorizedPageData)     (* [colorizeImage] gave an image *)
| NothingReturned.                      (* neither an error nor an image *)

Definition page_outcome (br : Browser) (cl : AppState) (doc : PDFDocumentProxy)
    (i : nat) : PageOutcome :=
  match renderPageToImage br doc i (resolutionScale cl) with
  | None => RenderFailed
  | Some rendered =>
      let result :=
        colorizeImage br (dataUrl rendered) (getActiveHexColor cl) (boldness cl) in
      match truthy (error result), truthy (imageUrl result) with
      | Some e, _ => TransformFailed e
      | None, Some url =>
          Colorized {| data_imageUrl := url;
                       data_width := rendered_width rendered;
                       data_height := rendered_height rendered |}
      | None, None => NothingReturned
      end
  end.

(** The first page among [i], ..., [i+n-1] whose render fails, and [i+n]
    when there is none. *)
Fixpoint first_render_failure (br : Browser) (cl : AppState)
    (doc : PDFDocumentProxy) (n i : nat) : nat :=
  match n with
  | O => i
  | S n' =>
      match page_outcome br cl doc i with
      | RenderFailed => i
      | _ => first_render_failure br cl doc n' (S i)
      end
  end.

(** The page cache [m] once the pages [i], ..., [i+n-1] have been handled:
    the artifact of every page that was colorized is stored, the entry of
    any other page is left as it was. *)
Fixpoint cache_after (br : Browser) (cl : AppState) (doc : PDFDocumentProxy)
    (n i : nat) (m : gmap nat ColorizedPageData) : gmap nat ColorizedPageData :=
  match n with
  | O => m
  | S n' =>
      cache_after br cl doc n' (S i)
        match page_outcome br cl doc i with
        | Colorized d => <[i := d]> m
        | _ => m
        end
  end.

(** Lines 190-195: the run as the loop finds it. *)
Definition batch_start (st : AppState) : Run :=
  {| run_state :=
       setError None
         (setBatchProgress (Some (0%nat, numPages st)) (setIsProcessing true st));
     newColorizedMap := colorizedPages st;
     run_observed := [];
     run_console := [] |}.

(** Line 200 and the [await] of line 207: the progress of page [i] is
    published, then the handler waits for the render. *)
Definition enter_page (cl : AppState) (i : nat) (run : Run) : Run :=
  suspend (with_state (setBatchProgress (Some (i, numPages cl))) run).

(** The cache on display and the handler's own map agree. *)
Definition coherent (run : Run) : Prop :=
  colorizedPages (run_state run) = newColorizedMap run.

(** A hexadecimal digit, and a valid colour: six hexadecimal digits, with
    or without a leading [#]. *)
Definition hex_digits : list ascii :=
  list_ascii_of_string "0123456789abcdefABCDEF".

Definition valid_hex_color (s : string) : Prop :=
  exists ds : list ascii,
    length ds = 6%nat
    /\ Forall (fun c => In c hex_digits) ds
    /\ (s = string_of_list_ascii ds
        \/ s = String "#"%char (string_of_list_ascii ds)).

(** What the [Math.pow] of a host is taken to satisfy on the arguments that
    the transform gives it: a base in (0, 1) and an exponent of at least 1
    give a result in [0, 1], and the exponent 1 gives the base. *)
Definition pow_unit_interval (pow : Q -> Q -> Q) : Prop :=
  forall t g : Q, (0 < t)%Q -> (t < 1)%Q -> (1 <= g)%Q ->
    (0 <= pow t g)%Q /\ (pow t g <= 1)%Q.


(** ** Sample hosts, for evaluating the model *)

(** A power function that is exact for integral exponents (the exponent is
    truncated otherwise). *)
Definition sample_pow (t g : Q) : Q := Qpower t (Qfloor g).

(** A toy image codec: a data URL is the sequence of the bytes of the
    pixels, one character per byte, in one row. *)
Definition sample_load (s : string) : CanvasOutcome :=
  if String.eqb s "" then ImageLoadError
  else
    Pixels {| img_width := (String.length s / 4)%nat;
              img_height := 1;
              img_data := map (fun c => Z.of_nat (nat_of_ascii c))
                            (list_ascii_of_string s) |}.

Definition sample_toDataURL (im : ImageData) : option string :=
  Some (string_of_list_ascii
          (map (fun z => ascii_of_nat (Z.to_nat z)) (img_data im))).

Definition sample_browser : Browser :=
  {| Math_pow := sample_pow;
     canvas_load := sample_load;
     canvas_toDataURL := sample_toDataURL;
     canvas_context2d := true |}.

(** Two pixels: a light grey one and a transparent one. *)
Definition sample_image : ImageData :=
  {| img_width := 2;
     img_height := 1;
     img_data := [200; 200; 200; 255; 12; 34; 56; 0]%Z |}.

(** A document of [n] letter-size pages, each one grey pixel when rendered.
    Rendering a page listed in [unrenderable] fails; a page listed in
    [undecodable] renders to an image that the browser cannot load. *)
Definition sample_page : PDFPageProxy :=
  {| getViewport := fun scale => (612 * scale, 792 * scale)%Q;
     page_render := fun _ => Some "PPP~"%string |}.

Definition unrenderable_page : PDFPageProxy :=
  {| getViewport := fun scale => (612 * scale, 792 * scale)%Q;
     page_render := fun _ => None |}.

Definition undecodable_page : PDFPageProxy :=
  {| getViewport := fun scale => (612 * scale, 792 * scale)%Q;
     page_render := fun _ => Some ""%string |}.

Definition sample_doc (n : nat) (unrenderable undecodable : list nat)
    : PDFDocumentProxy :=
  {| doc_numPages := n;
     getPage := fun i =>
       if ((1 <=? i)%nat && (i <=? n)%nat)
       then Some (if existsb (Nat.eqb i) unrenderable then unrenderable_page
                  else if existsb (Nat.eqb i) undecodable then undecodable_page
                  else sample_page)
       else None |}.

Definition sample_state (n : nat) (unrenderable undecodable : list nat)
    : AppState :=
  {| fileName := Some "scan.pdf"%string;
     pdfDoc := Some (sample_doc n unrenderable undecodable);
     numPages := n;
     colorizedPages := ∅;
     selectedTheme := theme_green;
     customColorHex := "#6366f1";
     resolutionScale := 3;
     boldness := 60;
     marginPercent := 0;
     isProcessing := false;
     batchProgress := None;
     appError := None |}.

(** A session with a given margin and page cache, for the download. *)
Definition sample_download_state (margin : Q)
    (pages : gmap nat ColorizedPageData) : AppState :=
  {| fileName := Some "scan"%string;
     pdfDoc := Some (sample_doc 5 [] []);
     numPages := 5;
     colorizedPages := pages;
     selectedTheme := theme_blue;
     customColorHex := "#6366f1";
     resolutionScale := 3;
     boldness := 60;
     marginPercent := margin;
     isProcessing := false;
     batchProgress := None;
     appError := None |}.

Definition artifact (url : string) (w h : Q) : ColorizedPageData :=
  {| data_imageUrl := url; data_width := w; data_height := h |}.

(** Pages 5 and 2 of a document, cached in this order. *)
Definition pages_5_2 : gmap nat ColorizedPageData :=
  <[2%nat := artifact "two" 100 200]> (<[5%nat := artifact "five" 300 400]> ∅).

(** ** The parameter formulas in binary64 *)

(** A small integer as a binary64 number (exact below 2^53). *)
Definition b64 (z : Z) : float := PrimFloat.of_uint63 (Uint63.of_Z z).

(** [n <= x < n + 1] in binary64: [Math.floor(x)] is [n]. *)
Definition b64_floor_is (x : float) (n : Z) : bool :=
  PrimFloat.leb (b64 n) x && PrimFloat.ltb x (b64 (n + 1)).

(** The arguments of [Math.floor] in lines 57 and 58, and in line 252 of
    App.tsx, evaluated as the engine evaluates them. *)
Definition b64_blackPoint_arg (b : Z) : float :=
  ((b64 b / b64 100) * b64 200)%float.

Definition b64_whitePoint_arg (b : Z) : float :=
  (((b64 100 - b64 b) / b64 100) * b64 10)%float.

Definition b64_marginPx_arg (m w : Z) : float :=
  (b64 w * (b64 m / b64 100))%float.

(** The positions of the boldness slider: 0, 5, ..., 100. *)
Definition slider_values : list Z :=
  map (fun k => (5 * Z.of_nat k)%Z) (seq 0 21).

(** ** The rest of [App]: the viewer and its handlers *)

(** The setters of the other cells of [AppState]. *)
Definition setFile (v : option string) (st : AppState) : AppState :=
  {| fileName := v; pdfDoc := pdfDoc st; numPages := numPages st;
     colorizedPages := colorizedPages st; selectedTheme := selectedTheme st;
     customColorHex := customColorHex st; resolutionScale := resolutionScale st;
     boldness := boldness st; marginPercent := marginPercent st;
     isProcessing := isProcessing st; batchProgress := batchProgress st;
     appError := appError st |}.

Definition setPdfDoc (v : option PDFDocumentProxy) (st : AppState) : AppState :=
  {| fileName := fileName st; pdfDoc := v; numPages := numPages st;
     colorizedPages := colorizedPages st; selectedTheme := selectedTheme st;
     customColorHex := customColorHex st; resolutionScale := resolutionScale st;
     boldness := boldness st; marginPercent := marginPercent st;
     isProcessing := isProcessing st; batchProgress := batchProgress st;
     appError := appError st |}.

Definition setNumPages (v : nat) (st : AppState) : AppState :=
  {| fileName := fileName st; pdfDoc := pdfDoc st; numPages := v;
     colorizedPages := colorizedPages st; selectedTheme := selectedTheme st;
     customColorHex := customColorHex st; resolutionScale := resolutionScale st;
     boldness := boldness st; marginPercent := marginPercent st;
     isProcessing := isProcessing st; batchProgress := batchProgress st;
     appError := appError st |}.

Definition setSelectedTheme (v : ColorTheme) (st : AppState) : AppState :=
  {| fileName := fileName st; pdfDoc := pdfDoc st; numPages := numPages st;
     colorizedPages := colorizedPages st; selectedTheme := v;
     customColorHex := customColorHex st; resolutionScale := resolutionScale st;
     boldness := boldness st; marginPercent := marginPercent st;
     isProcessing := isProcessing st; batchProgress := batchProgress st;
     appError := appError st |}.

Definition setCustomColorHex (v : string) (st : AppState) : AppState :=
  {| fileName := fileName st; pdfDoc := pdfDoc st; numPages := numPages st;
     colorizedPages := colorizedPages st; selectedTheme := selectedTheme st;
     customColorHex := v; resolutionScale := resolutionScale st;
     boldness := boldness st; marginPercent := marginPercent st;
     isProcessing := isProcessing st; batchProgress := batchProgress st;
     appError := appError st |}.

Definition setResolutionScale (v : Q) (st : AppState) : AppState :=
  {| fileName := fileName st; pdfDoc := pdfDoc st; numPages := numPages st;
     colorizedPages := colorizedPages st; selectedTheme := selectedTheme st;
     customColorHex := customColorHex st; resolutionScale := v;
     boldness := boldness st; marginPercent := marginPercent st;
     isProcessing := isProcessing st; batchProgress := batchProgress st;
     appError := appError st |}.

Definition setBoldness (v : Q) (st : AppState) : AppState :=
  {| fileName := fileName st; pdfDoc := pdfDoc st; numPages := numPages st;
     colorizedPages := colorizedPages st; selectedTheme := selectedTheme st;
     customColorHex := customColorHex st; resolutionScale := resolutionScale st;
     boldness := v; marginPercent := marginPercent st;
     isProcessing := isProcessing st; batchProgress := batchProgress st;
     appError := appError st |}.

Definition setMarginPercent (v : Q) (st : AppState) : AppState :=
  {| fileName := fileName st; pdfDoc := pdfDoc st; numPages := numPages st;
     colorizedPages := colorizedPages st; selectedTheme := selectedTheme st;
     customColorHex := customColorHex st; resolutionScale := resolutionScale st;
     boldness := boldness st; marginPercent := v;
     isProcessing := isProcessing st; batchProgress := batchProgress st;
     appError := appError st |}.

(** The whole state of the component: the cells of [AppState] and the
    cells that only the viewer uses (lines 64, 68, 84 and 88). *)
Record Session := {
  appState : AppState;
  currentPage : nat;
  originalPageImage : option RenderedPage;
  isCustomMargin : bool;
  isRenderingPdf : bool
}.

Definition with_app (f : AppState -> AppState) (s : Session) : Session :=
  {| appState := f (appState s); currentPage := currentPage s;
     originalPageImage := originalPageImage s;
     isCustomMargin := isCustomMargin s; isRenderingPdf := isRenderingPdf s |}.

Definition setCurrentPage (v : nat) (s : Session) : Session :=
  {| appState := appState s; currentPage := v;
     originalPageImage := originalPageImage s;
     isCustomMargin := isCustomMargin s; isRenderingPdf := isRenderingPdf s |}.

Definition setOriginalPageImage (v : option RenderedPage) (s : Session) : Session :=
  {| appState := appState s; currentPage := currentPage s;
     originalPageImage := v;
     isCustomMargin := isCustomMargin s; isRenderingPdf := isRenderingPdf s |}.

Definition setIsCustomMargin (v : bool) (s : Session) : Session :=
  {| appState := appState s; currentPage := currentPage s;
     originalPageImage := originalPageImage s;
     isCustomMargin := v; isRenderingPdf := isRenderingPdf s |}.

Definition setIsRenderingPdf (v : bool) (s : Session) : Session :=
  {| appState := appState s; currentPage := currentPage s;
     originalPageImage := originalPageImage s;
     isCustomMargin := isCustomMargin s; isRenderingPdf := v |}.

(** [getActiveThemeName] (lines 99-102), on the names of the table
    [THEMES]. *)
Definition THEME_NAMES : list (ColorTheme * string) :=
  [ (theme_black, "Sharp Black"%string);
    (theme_green, "Emerald Green"%string);
    (theme_blue, "Royal Blue"%string);
    (theme_red, "Crimson Red"%string);
    (theme_purple, "Deep Purple"%string);
    (theme_orange, "Burnt Orange"%string) ].

Definition getActiveThemeName (st : AppState) : string :=
  if ColorTheme_eqb (selectedTheme st) theme_custom then "Custom Color"%string
  else
    match find (fun t => ColorTheme_eqb (fst t) (selectedTheme st)) THEME_NAMES with
    | Some t => if String.eqb (snd t) "" then "Unknown"%string else snd t
    | None => "Unknown"%string
    end.

(** The colour buttons (line 393) and the colour picker (lines 411-414). *)
Definition click_theme (t : ColorTheme) (s : Session) : Session :=
  with_app (setSelectedTheme t) s.

Definition pick_custom_color (value : string) (s : Session) : Session :=
  with_app (fun st => setSelectedTheme theme_custom (setCustomColorHex value st)) s.

(** The page buttons (lines 574-590).  A disabled button fires no click. *)
Definition click_previous_page (s : Session) : Session :=
  if (currentPage s =? 1)%nat || isProcessing (appState s) then s
  else setCurrentPage (Nat.max 1 (currentPage s - 1)) s.

Definition click_next_page (s : Session) : Session :=
  if (currentPage s =? numPages (appState s))%nat || isProcessing (appState s) then s
  else setCurrentPage (Nat.min (numPages (appState s)) (currentPage s + 1)) s.

(** The margin selector (lines 503-521): the options of the list. *)
Inductive MarginOption :=
| margin_none | margin_small | margin_medium | margin_large | margin_custom.

Definition select_margin (o : MarginOption) (s : Session) : Session :=
  match o with
  | margin_custom => with_app (setMarginPercent 10) (setIsCustomMargin true s)
  | margin_none => with_app (setMarginPercent 0) (setIsCustomMargin false s)
  | margin_small => with_app (setMarginPercent 5) (setIsCustomMargin false s)
  | margin_medium => with_app (setMarginPercent 10) (setIsCustomMargin false s)
  | margin_large => with_app (setMarginPercent 15) (setIsCustomMargin false s)
  end.

(** The custom margin field (line 528), for the number [x] typed in it:
    [Math.min(50, Math.max(0, x))]. *)
Definition type_custom_margin (x : Q) (s : Session) : Session :=
  with_app (setMarginPercent (Qmin 50 (Qmax 0 x))) s.

(** [handleColorizeCurrent] (lines 159-184).  [colorizeImage] always
    resolves, so the [catch] of line 179 has no counterpart. *)
Definition handleColorizeCurrent (br : Browser) (s : Session) : Session :=
  match originalPageImage s with
  | None => s
  | Some image =>
      let st1 := setError None (setIsProcessing true (appState s)) in
      let targetHex := getActiveHexColor (appState s) in
      let result := colorizeImage br (dataUrl image) targetHex (boldness (appState s)) in
      let st2 :=
        match truthy (error result), truthy (imageUrl result) with
        | Some e, _ => setError (Some e) st1
        | None, Some url =>
            setColorizedPages
              (<[currentPage s := {| data_imageUrl := url;
                                     data_width := rendered_width image;
                                     data_height := rendered_height image |}]>
                 (colorizedPages st1)) st1
        | None, None => st1
        end in
      with_app (fun _ => setIsProcessing false st2) s
  end.

(** [handleDownloadPNG] (lines 280-290): the [href] and the [download] name
    of the link that is clicked, or [None] when the handler returns at line
    282. *)
Definition handleDownloadPNG (s : Session) : option (string * string) :=
  match colorizedPages (appState s) !! currentPage s with
  | None => None
  | Some pageData =>
      Some (data_imageUrl pageData,
            ("page_"
               ++ DecimalString.NilEmpty.string_of_uint (Nat.to_uint (currentPage s))
               ++ "_" ++ theme_id (selectedTheme (appState s)) ++ ".png")%string)
  end.

(** [handleReset] (lines 292-308).  The cells [numPages], [customColorHex],
    [isProcessing] and [isRenderingPdf] are not among those it sets. *)
Definition handleReset (s : Session) : Session :=
  {| appState :=
       {| fileName := None; pdfDoc := None; numPages := numPages (appState s);
          colorizedPages := ∅; selectedTheme := theme_black;
          customColorHex := customColorHex (appState s); resolutionScale := 3;
          boldness := 60; marginPercent := 0;
          isProcessing := isProcessing (appState s); batchProgress := None;
          appError := None |};
     currentPage := 1;
     originalPageImage := None;
     isCustomMargin := false;
     isRenderingPdf := isRenderingPdf s |}.

(** [renderCurrentPage] (lines 133-144). *)
Definition renderCurrentPage (br : Browser) (doc : PDFDocumentProxy)
    (pageNum : nat) (scale : Q) (s : Session) : Session :=
  let s := setIsRenderingPdf true s in
  let s :=
    match renderPageToImage br doc pageNum scale with
    | Some rendered => setOriginalPageImage (Some rendered) s
    | None => with_app (setError (Some "Failed to render page."%string)) s
    end in
  setIsRenderingPdf false s.

(** The effect of lines 147-156, when its timer fires. *)
Definition render_effect (br : Browser) (s : Session) : Session :=
  match pdfDoc (appState s) with
  | Some doc =>
      renderCurrentPage br doc (currentPage s) (resolutionScale (appState s)) s
  | None => s
  end.

(** The file of the input element, as far as the handlers read it. *)
Record UploadedFile := {
  file_name : string;
  file_type : string;
  file_bytes : string
}.

(** [loadPdfDocument] (pdfHelpers.ts, lines 14-18); [getDocument] is the one
    of pdf.js, [None] a rejected promise. *)
Definition loadPdfDocument (getDocument : string -> option PDFDocumentProxy)
    (file : UploadedFile) : option PDFDocumentProxy :=
  getDocument (file_bytes file).

(** [handleFileUpload] (lines 105-130), for the first file of the event.
    [renderCurrentPage] is called with the scale that the handler's closure
    captured. *)
Definition handleFileUpload (br : Browser)
    (getDocument : string -> option PDFDocumentProxy)
    (uploadedFile : option UploadedFile) (s : Session) : Session :=
  match uploadedFile with
  | None => s
  | Some f =>
      if negb (String.eqb (file_type f) "application/pdf") then s
      else
        let s1 :=
          with_app (fun st => setError None (setFile (Some (file_name f)) st))
            (setIsRenderingPdf true s) in
        let s2 :=
          match loadPdfDocument getDocument f with
          | None =>
              with_app
                (setError
                   (Some "Failed to load PDF. Please ensure it is a valid PDF file."%string))
                s1
          | Some doc =>
              let s' :=
                with_app
                  (fun st =>
                     setBatchProgress None
                       (setColorizedPages ∅
                          (setNumPages (doc_numPages doc)
                             (setPdfDoc (Some doc) st))))
                  (setCurrentPage 1 s1) in
              renderCurrentPage br doc 1 (resolutionScale (appState s)) s'
          end in
        setIsRenderingPdf false s2
  end.

(** [handleColorizeAll] on the whole state: the final state of the run. *)
Definition colorize_all (br : Browser) (s : Session) : Session :=
  with_app (fun st => run_state (handleColorizeAll br st)) s.

(** ** Notions used by the further properties *)

(** The usual notation of a colour: two hexadecimal digits per channel, in
    lower or upper case, with or without the leading [#]. *)
Definition hex_digit_char (upper : bool) (d : Z) : ascii :=
  if (d <? 10)%Z then ascii_of_nat (48 + Z.to_nat d)
  else ascii_of_nat ((if upper then 55 else 87) + Z.to_nat d).

Definition byte_hex (upper : bool) (v : Z) : string :=
  String (hex_digit_char upper (v / 16))
    (String (hex_digit_char upper (v mod 16)) EmptyString).

Definition rgb_hex (hash upper : bool) (c : RgbColor) : string :=
  ((if hash then "#" else "")
   ++ byte_hex upper (rgb_r c) ++ byte_hex upper (rgb_g c)
   ++ byte_hex upper (rgb_b c))%string.

Definition is_byte (v : Z) : Prop := (0 <= v <= 255)%Z.


(** The cells that a batch run never writes are the same in [st] and [s]. *)
Definition same_settings (st s : AppState) : Prop :=
  fileName s = fileName st /\ pdfDoc s = pdfDoc st
  /\ numPages s = numPages st /\ selectedTheme s = selectedTheme st
  /\ customColorHex s = customColorHex st
  /\ resolutionScale s = resolutionScale st /\ boldness s = boldness st
  /\ marginPercent s = marginPercent st.

(** The page numbers of a session are those of its document: every cached
    page and the current page lie in 1..numPages. *)
Definition session_ok (s : Session) : Prop :=
  (forall k, is_Some (colorizedPages (appState s) !! k) ->
     (1 <= k <= numPages (appState s))%nat)
  /\ (1 <= currentPage s <= numPages (appState s))%nat.

(** A session on the sample document, for evaluating the handlers. *)
Definition sample_session (n : nat) (unrenderable undecodable : list nat)
    : Session :=
  {| appState := sample_state n unrenderable undecodable;
     currentPage := 1;
     originalPageImage :=
       renderPageToImage sample_browser
         (sample_doc n unrenderable undecodable) 1 3;
     isCustomMargin := false;
     isRenderingPdf := false |}.

(** The sample of pdf.js [getDocument]: the bytes "%PDF" followed by one
    character per page. *)
Definition sample_getDocument (bytes : string) : option PDFDocumentProxy :=
  match bytes with
  | String "%" (String "P" (String "D" (String "F" pages))) =>
      Some (sample_doc (String.length pages) [] [])
  | _ => None
  end.

(** ** The code on binary64 numbers *)

(** The engine computes on IEEE 754 binary64 numbers: the result of [+],
    [-], [*], [/] is the exact result rounded to the nearest number with a
    significand of 53 bits, a tie going to the even significand; a decimal
    literal such as [0.299] is the number closest to it.  In this module a
    number is still a rational, a binary64 number is one that [round]
    leaves as it is, and every operation of the code is followed by its
    rounding.  The range of the exponent is not bounded: overflow and
    subnormal numbers are not modelled (the transform on a boldness in
    [0,100] and the assembly on a margin in [0,50] and sizes below 2^53
    produce neither); [NaN] and the infinities have no counterpart.
    [Math.floor] and [Math.round] are exact on their argument, and the
    comparisons are the exact ones. *)
Module Binary64.

(** [2^e], for an exponent of either sign. *)
Definition pow2 (e : Z) : Q := (2 ^ e)%Q.

(** The exponent [e] of a number [x <> 0]: [2^e <= |x| < 2^(e+1)]. *)
Definition exponent (x : Q) : Z :=
  let e0 := (Z.log2 (Z.abs (Qnum x)) - Z.log2 (QDen x))%Z in
  if Qltb (Qabs x) (pow2 e0) then (e0 - 1)%Z else e0.

(** The integer closest to [y], a tie going to the even one. *)
Definition round_half_even (y : Q) : Z :=
  let f := Qfloor y in
  match (y - inject_Z f ?= 1 # 2)%Q with
  | Lt => f
  | Gt => (f + 1)%Z
  | Eq => if Z.even f then f else (f + 1)%Z
  end.

(** Rounding to the nearest number with a significand of 53 bits: a
    multiple of [2^(e-52)], for the exponent [e] of [x].  ([Qred] writes
    the result in lowest terms.) *)
Definition round (x : Q) : Q :=
  if Qeq_bool x 0 then 0%Q
  else
    let ulp := pow2 (exponent x - 52) in
    Qred (inject_Z (round_half_even (x / ulp)) * ulp)%Q.

Definition add (x y : Q) : Q := round (x + y).
Definition sub (x y : Q) : Q := round (x - y).
Definition mul (x y : Q) : Q := round (x * y).
Definition div (x y : Q) : Q := round (x / y).

(** *** [colorizeImage], lines 57-92 *)

(** Lines 57-59. *)
Definition blackPoint (boldness : Q) : Q :=
  inject_Z (Math_floor (mul (div boldness 100) 200)).

Definition whitePoint (boldness : Q) : Q :=
  sub 255 (inject_Z (Math_floor (mul (div (sub 100 boldness) 100) 10))).

Definition gamma (boldness : Q) : Q := add 1 (mul (div boldness 100) 3).

(** Line 71: [0.299 * r + 0.587 * g + 0.114 * b], from left to right. *)
Definition luminance (r g b : Z) : Q :=
  add (add (mul (round 0.299) (inject_Z r)) (mul (round 0.587) (inject_Z g)))
    (mul (round 0.114) (inject_Z b)).

(** Line 74. *)
Definition normalized (boldness lum : Q) : Q :=
  div (sub lum (blackPoint boldness))
    (sub (whitePoint boldness) (blackPoint boldness)).

(** Lines 74-83. *)
Definition blend_factor (Math_pow : Q -> Q -> Q) (boldness : Q) (lum : Q) : Q :=
  let t := normalized boldness lum in
  let t := if Qltb t 0 then 0%Q else t in
  let t := if Qltb 1 t then 1%Q else t in
  if Qltb 0 t && Qltb t 1 then Math_pow t (gamma boldness) else t.

(** Lines 88-90. *)
Definition blend_channel (c : Z) (t : Q) : Z :=
  toUint8Clamp (Math_round (add (mul (inject_Z c) (sub 1 t)) (mul 255 t))).

(** Lines 62-91. *)
Definition colorize_pixel (Math_pow : Q -> Q -> Q) (target : RgbColor)
    (boldness : Q) (px : Pixel) : Pixel :=
  let r := px_r px in
  let g := px_g px in
  let b := px_b px in
  let a := px_a px in
  if (a =? 0)%Z then px
  else
    let t := blend_factor Math_pow boldness (luminance r g b) in
    {| px_r := blend_channel (rgb_r target) t;
       px_g := blend_channel (rgb_g target) t;
       px_b := blend_channel (rgb_b target) t;
       px_a := a |}.

Fixpoint colorize_data (Math_pow : Q -> Q -> Q) (target : RgbColor)
    (boldness : Q) (data : list Z) : list Z :=
  match data with
  | r :: g :: b :: a :: rest =>
      let px := colorize_pixel Math_pow target boldness
                  {| px_r := r; px_g := g; px_b := b; px_a := a |} in
      px_r px :: px_g px :: px_b px :: px_a px
        :: colorize_data Math_pow target boldness rest
  | _ => data
  end.

Definition colorize_imageData (Math_pow : Q -> Q -> Q) (targetColorHex : string)
    (boldness : Q) (imageData : ImageData) : ImageData :=
  let target := hexToRgb targetColorHex in
  {| img_width := img_width imageData;
     img_height := img_height imageData;
     img_data := colorize_data Math_pow target boldness (img_data imageData) |}.

(** *** [handleDownloadPDF], App.tsx, lines 235-277 *)

(** Line 252. *)
Definition marginPx (marginPercent width : Q) : Z :=
  Math_floor (mul width (div marginPercent 100)).

(** Lines 248-263. *)
Definition emit_page (marginPercent : Q) (doc : Document)
    (entry : nat * ColorizedPageData) : Document :=
  let data := snd entry in
  let width := data_width data in
  let height := data_height data in
  let marginPx := marginPx marginPercent width in
  let pageWidth := add width (mul (inject_Z marginPx) 2) in
  let pageHeight := add height (mul (inject_Z marginPx) 2) in
  addImage {| placed_image := data_imageUrl data;
              placed_x := inject_Z marginPx;
              placed_y := inject_Z marginPx;
              placed_width := width;
              placed_height := height |}
    (addPage pageWidth pageHeight doc).

Definition handleDownloadPDF (st : AppState) : DownloadOutcome :=
  if (size (colorizedPages st) =? 0)%nat then NoDownload
  else
    let doc := newDocument A4 in
    let sorted := sortedPages (colorizedPages st) in
    let doc := fold_left (emit_page (marginPercent st)) sorted doc in
    let totalPages := getNumberOfPages doc in
    let doc := if (length sorted <? totalPages)%nat then deletePage 1 doc else doc in
    Saved (download_name st) doc.

(** The page that the assembly emits for an artifact. *)
Definition page_of (marginPercent : Q) (d : ColorizedPageData) : PdfPage :=
  let mp := marginPx marginPercent (data_width d) in
  {| page_format :=
       Custom (add (data_width d) (mul (inject_Z mp) 2))
              (add (data_height d) (mul (inject_Z mp) 2));
     page_images :=
       [ {| placed_image := data_imageUrl d;
            placed_x := inject_Z mp;
            placed_y := inject_Z mp;
            placed_width := data_width d;
            placed_height := data_height d |} ] |}.

End Binary64.

(** The largest relative error of a rounding: [2^-53]. *)
Definition unit_roundoff : Q := 1 # 9007199254740992.

(** The exact value of a finite number of the kernel's binary64 type, for
    comparing [Binary64.round] with the hardware operations. *)
Definition float_value (x : float) : option Q :=
  match Prim2SF x with
  | S754_zero _ => Some 0%Q
  | S754_finite s m e =>
      Some ((if s then -1 else 1) * inject_Z (Zpos m) * Binary64.pow2 e)%Q
  | _ => None
  end.

Definition same_value (x : float) (q : Q) : bool :=
  match float_value x with
  | Some v => Qeq_bool v q
  | None => false
  end.

(** The numbers 0, 1, ..., n - 1. *)
Definition below (n : nat) : list Z := map Z.of_nat (seq 0 n).

(** * Part II: properties *)

(** ** Numbers *)

Lemma Qltb_lt (x y : Q) : Qltb x y = true <-> (x < y)%Q.
Proof. unfold Qltb, Qlt. apply Z.ltb_lt. Qed.

Lemma Qltb_ge (x y : Q) : Qltb x y = false <-> (y <= x)%Q.
Proof. unfold Qltb, Qle. apply Z.ltb_ge. Qed.

Lemma Qltb_reflect (x y : Q) : reflect (x < y)%Q (Qltb x y).
Proof.
  destruct (Qltb x y) eqn:E; constructor.
  - by apply Qltb_lt.
  - apply Qltb_ge in E. by apply Qle_not_lt.
Qed.

(** Case analysis on every test [x < y] of the goal, the innermost one
    first. *)
Ltac case_Qltb :=
  repeat match goal with
         | |- context [Qltb ?x ?y] =>
             lazymatch x with context [Qltb _ _] => fail | _ => idtac end;
             lazymatch y with context [Qltb _ _] => fail | _ => idtac end;
             destruct (Qltb_reflect x y); simpl
         end.

Lemma Math_floor_bounds (x : Q) :
  (inject_Z (Math_floor x) <= x /\ x < inject_Z (Math_floor x) + 1)%Q.
Proof.
  unfold Math_floor. split; [apply Qfloor_le |].
  pose proof (Qlt_floor x) as H. rewrite inject_Z_plus in H. exact H.
Qed.

Lemma Math_floor_unique (x : Q) (n : Z) :
  (inject_Z n <= x)%Q -> (x < inject_Z n + 1)%Q -> Math_floor x = n.
Proof.
  intros Hlo Hhi. destruct (Math_floor_bounds x) as [Flo Fhi].
  assert (inject_Z (Math_floor x) < inject_Z n + 1)%Q as H1 by lra.
  assert (inject_Z n < inject_Z (Math_floor x) + 1)%Q as H2 by lra.
  change 1%Q with (inject_Z 1) in H1, H2.
  rewrite <- inject_Z_plus, <- Zlt_Qlt in H1.
  rewrite <- inject_Z_plus, <- Zlt_Qlt in H2. lia.
Qed.

(** [Math_round x] is the integer [n] with [n - 1/2 <= x < n + 1/2]. *)
Lemma Math_round_spec (x : Q) : rounds_to x (Math_round x).
Proof.
  unfold rounds_to, Math_round.
  pose proof (Qfloor_le (x + (1 # 2))) as Hlo.
  pose proof (Qlt_floor (x + (1 # 2))) as Hhi.
  rewrite inject_Z_plus in Hhi. change (inject_Z 1) with 1%Q in Hhi.
  split; lra.
Qed.

Lemma rounds_to_unique (x : Q) (n m : Z) :
  rounds_to x n -> rounds_to x m -> n = m.
Proof.
  intros [Hlo Hhi] [Rlo Rhi].
  assert (inject_Z m < inject_Z n + 1)%Q as H1 by lra.
  assert (inject_Z n < inject_Z m + 1)%Q as H2 by lra.
  change 1%Q with (inject_Z 1) in H1, H2.
  rewrite <- inject_Z_plus, <- Zlt_Qlt in H1.
  rewrite <- inject_Z_plus, <- Zlt_Qlt in H2. lia.
Qed.

Lemma Math_round_unique (x : Q) (n : Z) : rounds_to x n -> Math_round x = n.
Proof. intros H. exact (rounds_to_unique x _ _ (Math_round_spec x) H). Qed.

Lemma Math_round_inject (z : Z) : Math_round (inject_Z z) = z.
Proof. apply Math_round_unique. unfold rounds_to. lra. Qed.

Lemma Math_round_comp (x y : Q) : (x == y)%Q -> Math_round x = Math_round y.
Proof. intros H. unfold Math_round. apply Qfloor_comp. by rewrite H. Qed.

Lemma Math_round_mono (x y : Q) :
  (x <= y)%Q -> (Math_round x <= Math_round y)%Z.
Proof. intros H. unfold Math_round. apply Qfloor_resp_le. lra. Qed.

Lemma toUint8Clamp_id (z : Z) : (0 <= z <= 255)%Z -> toUint8Clamp z = z.
Proof. unfold toUint8Clamp. lia. Qed.


(** ** The parameters of the transform *)

Lemma blackPoint_range (b : Q) :
  (0 <= b)%Q -> (b <= 100)%Q -> (0 <= blackPoint b <= 200)%Z.
Proof.
  intros H0 H1. unfold blackPoint.
  destruct (Math_floor_bounds (b / 100 * 200)) as [Flo Fhi].
  assert (b / 100 * 200 == 2 * b)%Q as E by field.
  assert (-1 < inject_Z (Math_floor (b / 100 * 200)))%Q as Hlo by lra.
  assert (inject_Z (Math_floor (b / 100 * 200)) < 201)%Q as Hhi by lra.
  change (-1)%Q with (inject_Z (-1)) in Hlo. change 201%Q with (inject_Z 201) in Hhi.
  rewrite <- Zlt_Qlt in Hlo, Hhi. lia.
Qed.

Lemma whitePoint_range (b : Q) :
  (0 <= b)%Q -> (b <= 100)%Q -> (245 <= whitePoint b <= 255)%Z.
Proof.
  intros H0 H1. unfold whitePoint.
  destruct (Math_floor_bounds ((100 - b) / 100 * 10)) as [Flo Fhi].
  assert ((100 - b) / 100 * 10 == 10 - b * (1 # 10))%Q as E by field.
  assert (-1 < inject_Z (Math_floor ((100 - b) / 100 * 10)))%Q as Hlo by lra.
  assert (inject_Z (Math_floor ((100 - b) / 100 * 10)) < 11)%Q as Hhi by lra.
  change (-1)%Q with (inject_Z (-1)) in Hlo. change 11%Q with (inject_Z 11) in Hhi.
  rewrite <- Zlt_Qlt in Hlo, Hhi. lia.
Qed.

Lemma gamma_range (b : Q) :
  (0 <= b)%Q -> (b <= 100)%Q -> (1 <= gamma b)%Q /\ (gamma b <= 4)%Q.
Proof.
  intros H0 H1. unfold gamma.
  assert (b / 100 * 3 == b * (3 # 100))%Q as E by field.
  split; lra.
Qed.

(** For a boldness in [0,100] the divisor of line 74 is at least 45: the
    division is a division by a positive number. *)
Lemma normalized_divisor_positive (b : Q) :
  (0 <= b)%Q -> (b <= 100)%Q -> (45 <= whitePoint b - blackPoint b)%Z.
Proof.
  intros H0 H1.
  pose proof (blackPoint_range b H0 H1). pose proof (whitePoint_range b H0 H1).
  lia.
Qed.

(** ** The blend factor [t] *)



(** The power curve is applied exactly when [0 < t < 1]. *)
Lemma blend_factor_cases (pow : Q -> Q -> Q) (b L : Q) :
  let t := normalized b L in
  ((t <= 0)%Q /\ (blend_factor pow b L == 0)%Q)
  \/ ((0 < t)%Q /\ (t < 1)%Q /\ blend_factor pow b L = pow t (gamma b))
  \/ ((1 <= t)%Q /\ (blend_factor pow b L == 1)%Q).
Proof.
  unfold blend_factor. generalize (normalized b L).
  intros t; simpl. case_Qltb.
  - left. split; [lra | reflexivity].
  - right; right. split; [lra | reflexivity].
  - right; left. done.
  - right; right. split; lra.
  - left. split; lra.
Qed.

Lemma blend_factor_range (pow : Q -> Q -> Q) (b L : Q) :
  pow_unit_interval pow -> (0 <= b)%Q -> (b <= 100)%Q ->
  (0 <= blend_factor pow b L)%Q /\ (blend_factor pow b L <= 1)%Q.
Proof.
  intros Hpow H0 H1.
  destruct (blend_factor_cases pow b L) as [[_ E]|[(Ht0 & Ht1 & E)|[_ E]]].
  - rewrite E. split; lra.
  - rewrite E. apply Hpow; [done | done |]. by apply gamma_range.
  - rewrite E. split; lra.
Qed.

(** ** One channel of the interpolation *)

Lemma interpolation_bounds (c : Z) (t : Q) :
  (0 <= c <= 255)%Z -> (0 <= t)%Q -> (t <= 1)%Q ->
  (c <= Math_round (inject_Z c * (1 - t) + 255 * t) <= 255)%Z.
Proof.
  intros [Hc0 Hc1] Ht0 Ht1.
  rewrite Zle_Qle in Hc0, Hc1.
  change (inject_Z 0) with 0%Q in Hc0. change (inject_Z 255) with 255%Q in Hc1.
  rewrite <- (Math_round_inject c) at 1.
  rewrite <- (Math_round_inject 255) at 3.
  change (inject_Z 255) with 255%Q.
  split; apply Math_round_mono; nra.
Qed.

Lemma blend_channel_round (c : Z) (t : Q) :
  (0 <= c <= 255)%Z -> (0 <= t)%Q -> (t <= 1)%Q ->
  blend_channel c t = Math_round (inject_Z c * (1 - t) + 255 * t).
Proof.
  intros Hc Ht0 Ht1. unfold blend_channel.
  apply toUint8Clamp_id. pose proof (interpolation_bounds c t Hc Ht0 Ht1). lia.
Qed.

Lemma blend_channel_comp (c : Z) (t t' : Q) :
  (t == t')%Q -> blend_channel c t = blend_channel c t'.
Proof.
  intros E. unfold blend_channel. f_equal. apply Math_round_comp.
  by rewrite E.
Qed.

Lemma blend_channel_zero (c : Z) (t : Q) :
  (0 <= c <= 255)%Z -> (t == 0)%Q -> blend_channel c t = c.
Proof.
  intros Hc E. rewrite (blend_channel_comp c t 0 E). unfold blend_channel.
  rewrite (Math_round_comp _ (inject_Z c)) by ring.
  rewrite Math_round_inject. by apply toUint8Clamp_id.
Qed.


(** ** [hexToRgb] *)

Lemma hex_class_existsb (c : ascii) :
  hex_class c = existsb (Ascii.eqb c) hex_digits.
Proof. destruct c as [[] [] [] [] [] [] [] []]; reflexivity. Qed.

Lemma hex_class_In (c : ascii) : hex_class c = true <-> In c hex_digits.
Proof.
  rewrite hex_class_existsb, existsb_exists. split.
  - intros (x & Hx & E). apply Ascii.eqb_eq in E. by subst.
  - intros H. exists c. split; [done | apply Ascii.eqb_refl].
Qed.

Lemma digit_value_hex (c : ascii) :
  hex_class c = true -> exists d, digit_value c = Some d /\ (0 <= d <= 15)%Z.
Proof.
  destruct c as [[] [] [] [] [] [] [] []]; intros H;
    first [ discriminate H
          | eexists; split; [vm_compute; reflexivity | lia] ].
Qed.

Lemma parseInt16_pair (c1 c2 : ascii) :
  hex_class c1 = true -> hex_class c2 = true ->
  (0 <= parseInt16 (String c1 (String c2 EmptyString)) <= 255)%Z.
Proof.
  intros H1 H2.
  destruct (digit_value_hex c1 H1) as (d1 & E1 & R1).
  destruct (digit_value_hex c2 H2) as (d2 & E2 & R2).
  unfold parseInt16. simpl. rewrite E1, E2. lia.
Qed.

Lemma hash_not_hex : hex_class "#"%char = false.
Proof. reflexivity. Qed.

Lemma drop_hash_cases (s : string) :
  (exists rest, s = String "#"%char rest /\ drop_hash s = rest)
  \/ (drop_hash s = s /\ forall rest, s <> String "#"%char rest).
Proof.
  destruct s as [|c rest]; [right; split; [reflexivity | discriminate] |].
  destruct (ascii_dec c "#"%char) as [-> | Hne].
  - left. by exists rest.
  - right. split; [| intros r E; congruence].
    destruct c as [[] [] [] [] [] [] [] []]; first [reflexivity | congruence].
Qed.

Lemma match_six_Some (body : string) (g : string * string * string) :
  match_six body = Some g ->
  exists c1 c2 c3 c4 c5 c6,
    body = string_of_list_ascii [c1; c2; c3; c4; c5; c6]
    /\ Forall (fun c => hex_class c = true) [c1; c2; c3; c4; c5; c6]
    /\ g = (String c1 (String c2 EmptyString),
            String c3 (String c4 EmptyString),
            String c5 (String c6 EmptyString)).
Proof.
  unfold match_six.
  destruct body as [|c1 [|c2 [|c3 [|c4 [|c5 [|c6 [|c7 rest]]]]]]]; try discriminate.
  destruct (forallb hex_class [c1; c2; c3; c4; c5; c6]) eqn:E; [| discriminate].
  intros [= <-]. exists c1, c2, c3, c4, c5, c6.
  split; [reflexivity |]. split; [| reflexivity].
  apply Forall_forall. intros c Hc. apply list_elem_of_In in Hc.
  revert c Hc. by apply forallb_forall.
Qed.

Lemma match_six_complete (ds : list ascii) :
  length ds = 6%nat -> Forall (fun c => hex_class c = true) ds ->
  is_Some (match_six (string_of_list_ascii ds)).
Proof.
  intros Hlen Hall.
  destruct ds as [|c1 [|c2 [|c3 [|c4 [|c5 [|c6 [|c7 rest]]]]]]]; try discriminate Hlen.
  assert (forallb hex_class [c1; c2; c3; c4; c5; c6] = true) as E.
  { apply forallb_forall. intros c Hc. apply list_elem_of_In in Hc.
    revert c Hc. by apply Forall_forall. }
  cbn [string_of_list_ascii]. unfold match_six. rewrite E. by eexists.
Qed.

(** The regular expression finds a match exactly on the valid colours. *)
Lemma hexRegex_exec_valid (s : string) :
  is_Some (hexRegex_exec s) <-> valid_hex_color s.
Proof.
  unfold hexRegex_exec, valid_hex_color. split.
  - intros [g Hg].
    destruct (match_six_Some _ _ Hg) as (c1 & c2 & c3 & c4 & c5 & c6 & Hb & Hall & _).
    exists [c1; c2; c3; c4; c5; c6]. split; [reflexivity |]. split.
    + eapply Forall_impl; [exact Hall |]. intros c Hc. by apply hex_class_In.
    + destruct (drop_hash_cases s) as [(rest & -> & E) | [E _]].
      * right. simpl in Hb. by rewrite Hb.
      * left. by rewrite <- Hb, E.
  - intros (ds & Hlen & Hall & Hs).
    assert (Forall (fun c => hex_class c = true) ds) as Hall'.
    { eapply Forall_impl; [exact Hall |]. intros c Hc. by apply hex_class_In. }
    destruct Hs as [-> | ->].
    + destruct (drop_hash_cases (string_of_list_ascii ds))
        as [(rest & E & _) | [-> _]]; [| by apply match_six_complete].
      destruct ds as [|c ds]; [discriminate Hlen |].
      simpl in E. injection E as -> _.
      apply Forall_inv in Hall'. by rewrite hash_not_hex in Hall'.
    + simpl. by apply match_six_complete.
Qed.

Lemma hexToRgb_invalid (s : string) :
  ~ valid_hex_color s -> hexToRgb s = {| rgb_r := 0; rgb_g := 0; rgb_b := 0 |}.
Proof.
  intros Hn. unfold hexToRgb.
  destruct (hexRegex_exec s) as [g|] eqn:E; [| reflexivity].
  exfalso. apply Hn, hexRegex_exec_valid. by exists g.
Qed.

(** Every channel of a parsed colour is a byte. *)
Lemma hexToRgb_range (s : string) :
  (0 <= rgb_r (hexToRgb s) <= 255)%Z
  /\ (0 <= rgb_g (hexToRgb s) <= 255)%Z
  /\ (0 <= rgb_b (hexToRgb s) <= 255)%Z.
Proof.
  unfold hexToRgb, hexRegex_exec.
  destruct (match_six (drop_hash s)) as [g|] eqn:E; [| simpl; lia].
  destruct (match_six_Some _ _ E) as (c1 & c2 & c3 & c4 & c5 & c6 & _ & Hall & ->).
  assert (forall c, In c [c1; c2; c3; c4; c5; c6] -> hex_class c = true) as H.
  { intros c Hc. apply list_elem_of_In in Hc. revert c Hc.
    by apply Forall_forall. }
  cbn [rgb_r rgb_g rgb_b].
  repeat split; apply parseInt16_pair; apply H; simpl; tauto.
Qed.

(** *** Evaluations *)

Example hexToRgb_emerald :
  hexToRgb "#10B981" = {| rgb_r := 16; rgb_g := 185; rgb_b := 129 |}.
Proof. reflexivity. Qed.

Example hexToRgb_without_hash :
  hexToRgb "3b82f6" = {| rgb_r := 59; rgb_g := 130; rgb_b := 246 |}.
Proof. reflexivity. Qed.

Example hexToRgb_three_digits :
  hexToRgb "#fff" = {| rgb_r := 0; rgb_g := 0; rgb_b := 0 |}.
Proof. reflexivity. Qed.

Example hexToRgb_trailing_newline :
  hexToRgb (String "#" (String "f" (String "f" (String "f" (String "f"
             (String "f" (String "f" (String "010" EmptyString))))))))
  = {| rgb_r := 0; rgb_g := 0; rgb_b := 0 |}.
Proof. reflexivity. Qed.

Example getActiveHexColor_theme :
  getActiveHexColor (sample_state 1 [] []) = "#10B981"%string.
Proof. reflexivity. Qed.

(** ** The loop over the pixels *)

Lemma pixel_at_short (data : list Z) (k : nat) :
  (length data < 4)%nat -> pixel_at data k = None.
Proof.
  intros H. unfold pixel_at.
  rewrite (lookup_ge_None_2 data (4 * k + 3)) by lia.
  by repeat case_match.
Qed.

Lemma pixel_at_head (r g b a : Z) (rest : list Z) :
  pixel_at (r :: g :: b :: a :: rest) 0
  = Some {| px_r := r; px_g := g; px_b := b; px_a := a |}.
Proof. reflexivity. Qed.

Lemma pixel_at_tail (r g b a : Z) (rest : list Z) (k : nat) :
  pixel_at (r :: g :: b :: a :: rest) (S k) = pixel_at rest k.
Proof.
  unfold pixel_at.
  replace (4 * S k)%nat with (S (S (S (S (4 * k))))) by lia.
  replace (S (S (S (S (4 * k)))) + 1)%nat with (S (S (S (S (4 * k + 1))))) by lia.
  replace (S (S (S (S (4 * k)))) + 2)%nat with (S (S (S (S (4 * k + 2))))) by lia.
  replace (S (S (S (S (4 * k)))) + 3)%nat with (S (S (S (S (4 * k + 3))))) by lia.
  reflexivity.
Qed.

(** The pixel [k] of the output is the loop body applied to the pixel [k]
    of the input. *)
Lemma colorize_data_pixel (pow : Q -> Q -> Q) (target : RgbColor) (b : Q)
    (data : list Z) (k : nat) :
  pixel_at (colorize_data pow target b data) k
  = colorize_pixel pow target b <$> pixel_at data k.
Proof.
  revert data. induction k as [|k IH]; intros data.
  - destruct data as [|r0 [|g0 [|b0 [|a0 rest]]]];
      try (rewrite !pixel_at_short by (simpl; lia); reflexivity).
    cbn [colorize_data]. rewrite !pixel_at_head. simpl.
    by destruct (colorize_pixel pow target b _).
  - destruct data as [|r0 [|g0 [|b0 [|a0 rest]]]];
      try (rewrite !pixel_at_short by (simpl; lia); reflexivity).
    cbn [colorize_data]. rewrite !pixel_at_tail. apply IH.
Qed.

Lemma colorize_data_length (pow : Q -> Q -> Q) (target : RgbColor) (b : Q)
    (data : list Z) :
  length (colorize_data pow target b data) = length data.
Proof.
  remember (length data) as n eqn:Hn. revert data Hn.
  induction n as [n IH] using lt_wf_ind. intros data Hn.
  destruct data as [|r0 [|g0 [|b0 [|a0 rest]]]]; try (subst; reflexivity).
  cbn [colorize_data length] in *. rewrite (IH (length rest)); [lia | lia | done].
Qed.

Lemma colorize_imageData_pixel (pow : Q -> Q -> Q) (hex : string) (b : Q)
    (im : ImageData) (k : nat) :
  pixel_at (img_data (colorize_imageData pow hex b im)) k
  = colorize_pixel pow (hexToRgb hex) b <$> pixel_at (img_data im) k.
Proof. apply colorize_data_pixel. Qed.

Lemma colorize_pixel_opaque (pow : Q -> Q -> Q) (target : RgbColor) (b : Q)
    (px : Pixel) :
  px_a px <> 0%Z ->
  colorize_pixel pow target b px
  = let t := blend_factor pow b (luminance (px_r px) (px_g px) (px_b px)) in
    {| px_r := blend_channel (rgb_r target) t;
       px_g := blend_channel (rgb_g target) t;
       px_b := blend_channel (rgb_b target) t;
       px_a := px_a px |}.
Proof.
  intros Ha. unfold colorize_pixel.
  destruct (Z.eqb_spec (px_a px) 0); [done | reflexivity].
Qed.

(** ** The sample power function *)

Lemma Qpower_positive_unit (t : Q) (p : positive) :
  (0 <= t)%Q -> (t <= 1)%Q ->
  (0 <= Qpower_positive t p)%Q /\ (Qpower_positive t p <= 1)%Q.
Proof.
  intros H0 H1. induction p as [|p [IH0 IH1]] using Pos.peano_ind.
  - simpl. done.
  - rewrite <- Pos.add_1_r, Qpower_plus_positive.
    change (Qpower_positive t 1) with t. split; nra.
Qed.

Lemma sample_pow_unit_interval : pow_unit_interval sample_pow.
Proof.
  intros t g Ht0 Ht1 Hg. unfold sample_pow.
  assert (1 <= Qfloor g)%Z as Hf.
  { change 1%Z with (Qfloor 1). by apply Qfloor_resp_le. }
  destruct (Qfloor g) as [|p|p]; try lia.
  apply Qpower_positive_unit; lra.
Qed.


(** *** Evaluations *)

Example parameters_at_60 :
  blackPoint 60 = 120%Z /\ whitePoint 60 = 251%Z /\ (gamma 60 == 2.8)%Q.
Proof. repeat split. Qed.

(** Black as the target at boldness 60: a black pixel stays black, a white
    pixel stays white, whatever the power function. *)
Example black_target_at_60 (pow : Q -> Q -> Q) :
  colorize_pixel pow (hexToRgb "#000000") 60
    {| px_r := 0; px_g := 0; px_b := 0; px_a := 255 |}
  = {| px_r := 0; px_g := 0; px_b := 0; px_a := 255 |}
  /\ colorize_pixel pow (hexToRgb "#000000") 60
       {| px_r := 255; px_g := 255; px_b := 255; px_a := 255 |}
     = {| px_r := 255; px_g := 255; px_b := 255; px_a := 255 |}.
Proof. split; reflexivity. Qed.

(** ** The transform: claims *)




Lemma params_100 :
  blackPoint 100 = 200%Z /\ whitePoint 100 = 255%Z /\ (gamma 100 == 4)%Q.
Proof. repeat split. Qed.

Lemma params_0 :
  blackPoint 0 = 0%Z /\ whitePoint 0 = 245%Z /\ (gamma 0 == 1)%Q.
Proof. repeat split. Qed.

(** C4: at boldness 100 the black point is 200 and gamma is 4, and every
    pixel with a non-zero alpha and a luminance of at most 200 gets t = 0
    and, channel for channel, the target colour. *)
Theorem C4_boldness_100_dark_pixels (pow : Q -> Q -> Q) (targetColorHex : string)
    (imageData : ImageData) (k : nat) (px : Pixel) :
  pixel_at (img_data imageData) k = Some px ->
  px_a px <> 0%Z ->
  (luminance (px_r px) (px_g px) (px_b px) <= 200)%Q ->
  blackPoint 100 = 200%Z
  /\ (gamma 100 == 4)%Q
  /\ (blend_factor pow 100 (luminance (px_r px) (px_g px) (px_b px)) == 0)%Q
  /\ pixel_at (img_data (colorize_imageData pow targetColorHex 100 imageData)) k
     = Some {| px_r := rgb_r (hexToRgb targetColorHex);
               px_g := rgb_g (hexToRgb targetColorHex);
               px_b := rgb_b (hexToRgb targetColorHex);
               px_a := px_a px |}.
Proof.
  intros Hpx Ha HL.
  split; [reflexivity |]. split; [reflexivity |].
  set (L := luminance (px_r px) (px_g px) (px_b px)) in *.
  assert (blend_factor pow 100 L == 0)%Q as Et.
  { destruct (blend_factor_cases pow 100 L) as [[_ E]|[(Hc0 & _ & _)|[Hc _]]];
      [exact E | exfalso | exfalso]; cbn zeta in *;
      unfold normalized in *;
      change (inject_Z (blackPoint 100)) with 200%Q in *;
      change (inject_Z (whitePoint 100)) with 255%Q in *.
    - assert ((L - 200) / (255 - 200) == (L - 200) * (1 # 55))%Q as E by field.
      lra.
    - assert ((L - 200) / (255 - 200) == (L - 200) * (1 # 55))%Q as E by field.
      lra. }
  split; [exact Et |].
  rewrite colorize_imageData_pixel, Hpx. cbn [fmap option_fmap option_map].
  rewrite colorize_pixel_opaque by done. cbn zeta. fold L.
  destruct (hexToRgb_range targetColorHex) as (Hr & Hg & Hb).
  by rewrite !blend_channel_zero.
Qed.

(** C4, evaluated: a mid-grey pixel (luminance 128) becomes #10B981. *)
Lemma C4_boldness_100_dark_pixels_witness :
  pixel_at (img_data (colorize_imageData sample_pow "#10B981" 100
                        {| img_width := 1; img_height := 1;
                           img_data := [128; 128; 128; 255]%Z |})) 0
  = Some {| px_r := 16; px_g := 185; px_b := 129; px_a := 255 |}.
Proof.
  refine (proj2 (proj2 (proj2
    (C4_boldness_100_dark_pixels sample_pow "#10B981"
       {| img_width := 1; img_height := 1; img_data := [128; 128; 128; 255]%Z |}
       0 {| px_r := 128; px_g := 128; px_b := 128; px_a := 255 |} _ _ _)))).
  - reflexivity.
  - discriminate.
  - vm_compute. discriminate.
Defined.

(** C8: whatever the image, the colour and the boldness, a pixel whose
    alpha is 0 leaves the transform as it entered it: R, G, B and alpha. *)
Theorem C8_transparent_pixels_unchanged (pow : Q -> Q -> Q)
    (targetColorHex : string) (b : Q) (imageData : ImageData) (k : nat)
    (px : Pixel) :
  pixel_at (img_data imageData) k = Some px ->
  px_a px = 0%Z ->
  pixel_at (img_data (colorize_imageData pow targetColorHex b imageData)) k
  = Some px.
Proof.
  intros Hpx Ha. rewrite colorize_imageData_pixel, Hpx.
  cbn [fmap option_fmap option_map]. unfold colorize_pixel. by rewrite Ha.
Qed.

(** C8, evaluated on the transparent pixel of [sample_image]. *)
Lemma C8_transparent_pixels_unchanged_witness :
  pixel_at (img_data (colorize_imageData sample_pow "#EF4444" 60 sample_image)) 1
  = Some {| px_r := 12; px_g := 34; px_b := 56; px_a := 0 |}.
Proof.
  apply (C8_transparent_pixels_unchanged sample_pow "#EF4444" 60 sample_image 1
           {| px_r := 12; px_g := 34; px_b := 56; px_a := 0 |});
    reflexivity.
Defined.

(** C10: for a pixel with a non-zero alpha, any target colour and any
    boldness in [0,100], each output channel lies between the channel of the
    target colour and 255: the output is on the segment from the target
    colour to white. *)
Theorem C10_output_between_target_and_white (pow : Q -> Q -> Q)
    (targetColorHex : string) (b : Q) (imageData : ImageData) (k : nat)
    (px : Pixel) :
  pow_unit_interval pow ->
  (0 <= b)%Q -> (b <= 100)%Q ->
  pixel_at (img_data imageData) k = Some px ->
  px_a px <> 0%Z ->
  exists out : Pixel,
    pixel_at (img_data (colorize_imageData pow targetColorHex b imageData)) k
    = Some out
    /\ (rgb_r (hexToRgb targetColorHex) <= px_r out <= 255)%Z
    /\ (rgb_g (hexToRgb targetColorHex) <= px_g out <= 255)%Z
    /\ (rgb_b (hexToRgb targetColorHex) <= px_b out <= 255)%Z.
Proof.
  intros Hpow Hb0 Hb1 Hpx Ha.
  rewrite colorize_imageData_pixel, Hpx. cbn [fmap option_fmap option_map].
  eexists. split; [reflexivity |].
  rewrite colorize_pixel_opaque by done. cbn zeta. cbn [px_r px_g px_b].
  destruct (hexToRgb_range targetColorHex) as (Hr & Hg & Hbl).
  destruct (blend_factor_range pow b
              (luminance (px_r px) (px_g px) (px_b px)) Hpow Hb0 Hb1) as [Ht0 Ht1].
  rewrite !blend_channel_round by done.
  repeat split; by apply interpolation_bounds.
Qed.

(** C10, evaluated: the light grey pixel at boldness 100 with #10B981. *)
Lemma C10_output_between_target_and_white_witness :
  exists out : Pixel,
    pixel_at (img_data (colorize_imageData sample_pow "#10B981" 100 sample_image)) 0
    = Some out
    /\ (rgb_r (hexToRgb "#10B981") <= px_r out <= 255)%Z
    /\ (rgb_g (hexToRgb "#10B981") <= px_g out <= 255)%Z
    /\ (rgb_b (hexToRgb "#10B981") <= px_b out <= 255)%Z.
Proof.
  apply (C10_output_between_target_and_white sample_pow "#10B981" 100
           sample_image 0 {| px_r := 200; px_g := 200; px_b := 200; px_a := 255 |}
           sample_pow_unit_interval).
  - vm_compute. discriminate.
  - vm_compute. discriminate.
  - reflexivity.
  - discriminate.
Defined.

(** *** Boldness 0 *)







(** *** Malformed colours *)

Lemma invalid_by_exec (s : string) :
  hexRegex_exec s = None -> ~ valid_hex_color s.
Proof.
  intros E Hv. apply hexRegex_exec_valid in Hv. rewrite E in Hv.
  by destruct Hv.
Qed.

(** C9: a colour string that is not a valid six-digit hexadecimal colour is
    treated as black, and the transform goes on as it does for black: the
    result of [colorizeImage] is the one it gives for #000000, so the
    malformed string is never the cause of an error. *)
Theorem C9_malformed_color_is_black (br : Browser)
    (base64Image targetColorHex : string) (b : Q) :
  ~ valid_hex_color targetColorHex ->
  hexToRgb targetColorHex = {| rgb_r := 0; rgb_g := 0; rgb_b := 0 |}
  /\ (forall imageData : ImageData,
        colorize_imageData (Math_pow br) targetColorHex b imageData
        = colorize_imageData (Math_pow br) "#000000" b imageData)
  /\ colorizeImage br base64Image targetColorHex b
     = colorizeImage br base64Image "#000000" b.
Proof.
  intros Hn. pose proof (hexToRgb_invalid _ Hn) as E.
  assert (forall imageData : ImageData,
             colorize_imageData (Math_pow br) targetColorHex b imageData
             = colorize_imageData (Math_pow br) "#000000" b imageData) as Him.
  { intros im. unfold colorize_imageData. by rewrite E. }
  split; [exact E |]. split; [exact Him |].
  unfold colorizeImage. destruct (canvas_load br base64Image); try reflexivity.
  by rewrite Him.
Qed.

(** C9, evaluated: the three-digit form #fff is not accepted and gives
    black. *)
Lemma C9_malformed_color_is_black_witness :
  hexToRgb "#fff" = {| rgb_r := 0; rgb_g := 0; rgb_b := 0 |}
  /\ colorizeImage sample_browser "PPP~" "#fff" 60
     = colorizeImage sample_browser "PPP~" "#000000" 60.
Proof.
  destruct (C9_malformed_color_is_black sample_browser "PPP~" "#fff" 60
              (invalid_by_exec "#fff" eq_refl)) as (H1 & _ & H2).
  exact (conj H1 H2).
Defined.

(** ** The assembly of the output document *)

Lemma marginPx_spec (m width : Q) : marginPx m width = spec_marginPx m width.
Proof.
  unfold marginPx, spec_marginPx, Math_floor. apply Qfloor_comp. field.
Qed.

Lemma addImage_last (im : PlacedImage) (doc : Document) (pg : PdfPage) :
  addImage im (doc ++ [pg]) = doc ++ [place_on im pg].
Proof.
  unfold addImage. rewrite length_app, Nat.add_1_r.
  induction doc as [|p doc IH]; [reflexivity |].
  simpl. f_equal. exact IH.
Qed.

Lemma emit_page_spec (m : Q) (doc : Document) (entry : nat * ColorizedPageData) :
  emit_page m doc entry = doc ++ [spec_page m (snd entry)].
Proof.
  unfold emit_page, addPage, spec_page. cbn zeta.
  rewrite addImage_last. unfold place_on. cbn [page_format page_images app].
  rewrite marginPx_spec, (Z.mul_comm _ 2). reflexivity.
Qed.

Lemma fold_emit_page (m : Q) (l : list (nat * ColorizedPageData)) (doc : Document) :
  fold_left (emit_page m) l doc = doc ++ map (fun e => spec_page m (snd e)) l.
Proof.
  revert doc. induction l as [|e l IH]; intros doc; simpl.
  - by rewrite app_nil_r.
  - rewrite IH, emit_page_spec, <- app_assoc. reflexivity.
Qed.

#[local] Instance page_order_trans : Transitive page_order.
Proof. intros a b c. unfold page_order. lia. Qed.

#[local] Instance page_order_total : Total page_order.
Proof. intros a b. unfold page_order. lia. Qed.

Lemma sortedPages_Permutation (pages : gmap nat ColorizedPageData) :
  sortedPages pages ≡ₚ map_to_list pages.
Proof. apply merge_sort_Permutation. Qed.

Lemma sortedPages_length (pages : gmap nat ColorizedPageData) :
  length (sortedPages pages) = size pages.
Proof.
  rewrite (Permutation_length (sortedPages_Permutation pages)).
  apply length_map_to_list.
Qed.

Lemma elem_of_sortedPages (pages : gmap nat ColorizedPageData) (k : nat)
    (d : ColorizedPageData) :
  (k, d) ∈ sortedPages pages <-> pages !! k = Some d.
Proof. rewrite (sortedPages_Permutation pages). apply elem_of_map_to_list. Qed.

(** A list of entries with distinct keys that is sorted by the comparator
    has strictly increasing keys. *)
Lemma sorted_distinct_ascending (l : list (nat * ColorizedPageData)) :
  StronglySorted page_order l -> NoDup (map fst l) ->
  StronglySorted lt (map fst l).
Proof.
  induction l as [|e l IH]; intros Hs Hn; simpl; [constructor |].
  apply StronglySorted_inv in Hs as [Hs Hall].
  apply NoDup_cons in Hn as [Hnotin Hn].
  constructor; [by apply IH |].
  apply Forall_forall. intros k Hk.
  apply list_elem_of_fmap in Hk as (e' & -> & He').
  assert (page_order e e') as Hle by (revert e' He'; by apply Forall_forall).
  unfold page_order in Hle.
  assert (fst e <> fst e') as Hne.
  { intros E. apply Hnotin. rewrite E. apply list_elem_of_fmap. by exists e'. }
  lia.
Qed.

Lemma sortedPages_ascending (pages : gmap nat ColorizedPageData) :
  StronglySorted lt (map fst (sortedPages pages)).
Proof.
  apply sorted_distinct_ascending.
  - apply StronglySorted_merge_sort; apply _.
  - change (map fst (sortedPages pages)) with ((sortedPages pages).*1).
    rewrite (sortedPages_Permutation pages). apply NoDup_fst_map_to_list.
Qed.

(** What the handler saves: nothing for an empty cache, else one page per
    entry of the cache, in the sorted order. *)
Lemma handleDownloadPDF_pages (st : AppState) :
  handleDownloadPDF st
  = if decide (size (colorizedPages st) = 0%nat) then NoDownload
    else Saved (download_name st)
           (map (fun e => spec_page (marginPercent st) (snd e))
              (sortedPages (colorizedPages st))).
Proof.
  unfold handleDownloadPDF.
  destruct (Nat.eqb_spec (size (colorizedPages st)) 0) as [E | E];
    destruct (decide (size (colorizedPages st) = 0%nat)); try done.
  rewrite fold_emit_page. unfold getNumberOfPages, newDocument.
  cbn [app length]. rewrite length_map.
  destruct (Nat.ltb_spec (length (sortedPages (colorizedPages st)))
              (S (length (sortedPages (colorizedPages st))))); [| lia].
  reflexivity.
Qed.

(** C3: the assembly gives a document with exactly as many pages as the
    cache has artifacts, in ascending order of the page numbers; a page
    number without an artifact gives no page (every page of the document
    carries the image of an artifact), and with no artifact at all no
    document is produced. *)
Theorem C3_assembly_one_page_per_artifact (st : AppState) :
  let pages := colorizedPages st in
  let entries := sortedPages pages in
  (size pages = 0%nat -> handleDownloadPDF st = NoDownload)
  /\ (size pages <> 0%nat ->
      handleDownloadPDF st
      = Saved (download_name st)
          (map (fun e => spec_page (marginPercent st) (snd e)) entries))
  /\ length (map (fun e => spec_page (marginPercent st) (snd e)) entries)
     = size pages
  /\ (forall k d, (k, d) ∈ entries <-> pages !! k = Some d)
  /\ StronglySorted lt (map fst entries)
  /\ Forall (fun pg => exists im, page_images pg = [im])
       (map (fun e => spec_page (marginPercent st) (snd e)) entries).
Proof.
  cbn zeta. pose proof (handleDownloadPDF_pages st) as H.
  split; [| split; [| split; [| split; [| split]]]].
  - intros E. rewrite H. by destruct (decide _).
  - intros E. rewrite H. by destruct (decide _).
  - rewrite length_map. apply sortedPages_length.
  - intros k d. apply elem_of_sortedPages.
  - apply sortedPages_ascending.
  - apply Forall_forall. intros pg Hpg.
    apply list_elem_of_fmap in Hpg as (e & -> & _). by eexists.
Qed.

(** C3, evaluated: the artifacts of pages 5 and 2 at margin 0 give two
    pages, page 2 first. *)
Lemma C3_assembly_one_page_per_artifact_witness :
  handleDownloadPDF (sample_download_state 0 pages_5_2)
  = Saved "chromapdf_blue_scan.pdf"
      [ {| page_format := Custom 100 200;
           page_images := [ {| placed_image := "two"; placed_x := 0;
                               placed_y := 0; placed_width := 100;
                               placed_height := 200 |} ] |};
        {| page_format := Custom 300 400;
           page_images := [ {| placed_image := "five"; placed_x := 0;
                               placed_y := 0; placed_width := 300;
                               placed_height := 400 |} ] |} ].
Proof.
  destruct (C3_assembly_one_page_per_artifact (sample_download_state 0 pages_5_2))
    as (_ & H & _).
  rewrite H by (vm_compute; discriminate). vm_compute. reflexivity.
Defined.

Lemma C3_no_artifact_no_document (margin : Q) :
  handleDownloadPDF (sample_download_state margin ∅) = NoDownload.
Proof. reflexivity. Qed.




(** ** The batch run *)

Section BatchRun.

Variable br : Browser.
Variable cl : AppState.
Variable doc : PDFDocumentProxy.

Lemma colorizeAll_loop_step (n i : nat) (run : Run) :
  colorizeAll_loop br cl doc (S n) i run
  = match page_outcome br cl doc i with
    | RenderFailed => (false, enter_page cl i run)
    | TransformFailed e =>
        colorizeAll_loop br cl doc n (S i)
          (console_error (PageError i e) (suspend (enter_page cl i run)))
    | Colorized d =>
        colorizeAll_loop br cl doc n (S i)
          (store_page i d (suspend (enter_page cl i run)))
    | NothingReturned =>
        colorizeAll_loop br cl doc n (S i) (suspend (enter_page cl i run))
    end.
Proof.
  cbn [colorizeAll_loop]. unfold page_outcome, enter_page.
  destruct (renderPageToImage br doc i (resolutionScale cl)) as [rendered|];
    [| reflexivity].
  cbn zeta.
  destruct (truthy (error (colorizeImage br (dataUrl rendered)
                             (getActiveHexColor cl) (boldness cl))));
    [reflexivity |].
  destruct (truthy (imageUrl (colorizeImage br (dataUrl rendered)
                                (getActiveHexColor cl) (boldness cl))));
    reflexivity.
Qed.

Lemma first_render_failure_bounds (n i : nat) :
  (i <= first_render_failure br cl doc n i <= i + n)%nat.
Proof.
  revert i. induction n as [|n IH]; intros i; cbn [first_render_failure]; [lia |].
  destruct (page_outcome br cl doc i); try lia; specialize (IH (S i)); lia.
Qed.

(** No page before the first failure fails to render. *)
Lemma before_first_render_failure (n i j : nat) :
  (i <= j < first_render_failure br cl doc n i)%nat ->
  page_outcome br cl doc j <> RenderFailed.
Proof.
  revert i. induction n as [|n IH]; intros i; cbn [first_render_failure]; [lia |].
  destruct (page_outcome br cl doc i) eqn:E; [lia | | |];
    intros Hj; (destruct (decide (j = i)) as [-> | Hne];
                [by rewrite E | apply (IH (S i)); lia]).
Qed.

Lemma at_first_render_failure (n i : nat) :
  (first_render_failure br cl doc n i < i + n)%nat ->
  page_outcome br cl doc (first_render_failure br cl doc n i) = RenderFailed.
Proof.
  revert i. induction n as [|n IH]; intros i; cbn [first_render_failure]; [lia |].
  destruct (page_outcome br cl doc i) eqn:E; [done | | |];
    intros H; apply IH; lia.
Qed.

Lemma cache_after_lookup (n i j : nat) (m : gmap nat ColorizedPageData) :
  cache_after br cl doc n i m !! j
  = if decide (i <= j < i + n)%nat then
      match page_outcome br cl doc j with
      | Colorized d => Some d
      | _ => m !! j
      end
    else m !! j.
Proof.
  revert i m. induction n as [|n IH]; intros i m; cbn [cache_after].
  - destruct (decide _); [lia | reflexivity].
  - rewrite IH. destruct (decide (j = i)) as [-> | Hne].
    + destruct (decide (S i <= i < S i + n)%nat); [lia |].
      destruct (decide (i <= i < i + S n)%nat); [| lia].
      destruct (page_outcome br cl doc i); try reflexivity.
      apply lookup_insert_eq.
    + assert (match page_outcome br cl doc i with
              | Colorized d => <[i:=d]> m
              | _ => m
              end !! j = m !! j) as ->.
      { destruct (page_outcome br cl doc i); try reflexivity.
        by apply lookup_insert_ne. }
      destruct (decide (S i <= j < S i + n)%nat);
        destruct (decide (i <= j < i + S n)%nat); try lia; reflexivity.
Qed.

Lemma cache_after_succ (n i : nat) (m : gmap nat ColorizedPageData) :
  cache_after br cl doc (S n) i m
  = cache_after br cl doc n (S i)
      match page_outcome br cl doc i with
      | Colorized d => <[i := d]> m
      | _ => m
      end.
Proof. reflexivity. Qed.

(** Whether the loop ran to its end. *)
Lemma colorizeAll_loop_completed (n i : nat) (run : Run) :
  fst (colorizeAll_loop br cl doc n i run)
  = bool_decide (first_render_failure br cl doc n i = (i + n)%nat).
Proof.
  revert i run. induction n as [|n IH]; intros i run.
  - cbn. rewrite bool_decide_eq_true_2; [reflexivity | lia].
  - rewrite colorizeAll_loop_step. cbn [first_render_failure].
    pose proof (first_render_failure_bounds n (S i)).
    destruct (page_outcome br cl doc i); rewrite ?IH.
    + cbn. rewrite bool_decide_eq_false_2; [reflexivity | lia].
    + apply bool_decide_ext. lia.
    + apply bool_decide_ext. lia.
    + apply bool_decide_ext. lia.
Qed.

(** The handler's map after the loop, and its agreement with the state. *)
Lemma colorizeAll_loop_map (n i : nat) (run : Run) :
  coherent run ->
  let run' := snd (colorizeAll_loop br cl doc n i run) in
  coherent run'
  /\ newColorizedMap run'
     = cache_after br cl doc (first_render_failure br cl doc n i - i) i
         (newColorizedMap run).
Proof.
  revert i run. induction n as [|n IH]; intros i run Hco; cbn zeta.
  - cbn. rewrite Nat.sub_diag. done.
  - rewrite colorizeAll_loop_step. cbn [first_render_failure].
    pose proof (first_render_failure_bounds n (S i)) as Hb.
    destruct (page_outcome br cl doc i) eqn:E.
    + cbn. rewrite Nat.sub_diag. done.
    + destruct (IH (S i) (console_error (PageError i message)
                            (suspend (enter_page cl i run)))) as [H1 H2];
        [exact Hco |].
      split; [exact H1 |]. rewrite H2.
      replace (first_render_failure br cl doc n (S i) - i)%nat
        with (S (first_render_failure br cl doc n (S i) - S i)) by lia.
      rewrite cache_after_succ, E. reflexivity.
    + destruct (IH (S i) (store_page i d (suspend (enter_page cl i run))))
        as [H1 H2]; [reflexivity |].
      split; [exact H1 |]. rewrite H2.
      replace (first_render_failure br cl doc n (S i) - i)%nat
        with (S (first_render_failure br cl doc n (S i) - S i)) by lia.
      rewrite cache_after_succ, E. reflexivity.
    + destruct (IH (S i) (suspend (enter_page cl i run))) as [H1 H2];
        [exact Hco |].
      split; [exact H1 |]. rewrite H2.
      replace (first_render_failure br cl doc n (S i) - i)%nat
        with (S (first_render_failure br cl doc n (S i) - S i)) by lia.
      rewrite cache_after_succ, E. reflexivity.
Qed.

(** The states on display during the loop: each one shows the progress of
    some page [j] together with the cache as the pages before [j] left
    it. *)
Lemma colorizeAll_loop_observed (n i : nat) (run : Run) :
  coherent run ->
  let run' := snd (colorizeAll_loop br cl doc n i run) in
  let stop := first_render_failure br cl doc n i in
  (forall s, s ∈ run_observed run' ->
     s ∈ run_observed run
     \/ exists j, (i <= j < i + n)%nat /\ (j <= stop)%nat
          /\ batchProgress s = Some (j, numPages cl)
          /\ colorizedPages s
             = cache_after br cl doc (j - i) i (newColorizedMap run))
  /\ (forall s, s ∈ run_observed run -> s ∈ run_observed run')
  /\ (forall j, (i <= j < i + n)%nat -> (j <= stop)%nat ->
        exists s, s ∈ run_observed run'
          /\ batchProgress s = Some (j, numPages cl)).
Proof.
  revert i run. induction n as [|n IH]; intros i run Hco; cbn zeta.
  - cbn. split; [by left |]. split; [done | lia].
  - rewrite colorizeAll_loop_step. cbn [first_render_failure].
    pose proof (first_render_failure_bounds n (S i)) as Hb.
    set (s1 := setBatchProgress (Some (i, numPages cl)) (run_state run)).
    assert (batchProgress s1 = Some (i, numPages cl)) as Hp1 by reflexivity.
    assert (colorizedPages s1
            = cache_after br cl doc (i - i) i (newColorizedMap run)) as Hc1
      by (rewrite Nat.sub_diag; exact Hco).
    assert (forall run2 : Run,
              coherent run2 ->
              run_observed run2 = (run_observed run ++ [s1]) ++ [s1] ->
              newColorizedMap run2
              = match page_outcome br cl doc i with
                | Colorized d => <[i := d]> (newColorizedMap run)
                | _ => newColorizedMap run
                end ->
              page_outcome br cl doc i <> RenderFailed ->
              let run' := snd (colorizeAll_loop br cl doc n (S i) run2) in
              let stop := first_render_failure br cl doc n (S i) in
              (forall s, s ∈ run_observed run' ->
                 s ∈ run_observed run
                 \/ exists j, (i <= j < i + S n)%nat /\ (j <= stop)%nat
                      /\ batchProgress s = Some (j, numPages cl)
                      /\ colorizedPages s
                         = cache_after br cl doc (j - i) i (newColorizedMap run))
              /\ (forall s, s ∈ run_observed run -> s ∈ run_observed run')
              /\ (forall j, (i <= j < i + S n)%nat -> (j <= stop)%nat ->
                    exists s, s ∈ run_observed run'
                      /\ batchProgress s = Some (j, numPages cl))) as Hnext.
    { intros run2 Hco2 Hobs2 Hmap2 Hok. cbn zeta.
      destruct (IH (S i) run2 Hco2) as (A & B & C).
      split; [| split].
      - intros s Hs. destruct (A s Hs) as [Hin | (j & Hj & Hjs & Hpj & Hcj)].
        + rewrite Hobs2 in Hin.
          apply elem_of_app in Hin as [Hin | Hin];
            [apply elem_of_app in Hin as [Hin | Hin] |].
          * by left.
          * apply list_elem_of_singleton in Hin as ->.
            right. exists i. repeat split; try lia; done.
          * apply list_elem_of_singleton in Hin as ->.
            right. exists i. repeat split; try lia; done.
        + right. exists j. repeat split; try lia; [done |].
          rewrite Hcj, Hmap2.
          replace (j - i)%nat with (S (j - S i)) by lia.
          by rewrite cache_after_succ.
      - intros s Hs. apply B. rewrite Hobs2.
        apply elem_of_app; left. apply elem_of_app; by left.
      - intros j Hj Hjs. destruct (decide (j = i)) as [-> | Hne].
        + exists s1. split; [| done]. apply B. rewrite Hobs2.
          apply elem_of_app; right. by apply list_elem_of_singleton.
        + apply C; lia. }
    destruct (page_outcome br cl doc i) eqn:E.
    + cbn. split; [| split].
      * intros s Hs. apply elem_of_app in Hs as [Hs | Hs]; [by left |].
        apply list_elem_of_singleton in Hs as ->.
        right. exists i. repeat split; try lia; done.
      * intros s Hs. apply elem_of_app; by left.
      * intros j Hj Hjs. assert (j = i) as -> by lia.
        exists s1. split; [| done].
        apply elem_of_app; right. by apply list_elem_of_singleton.
    + apply Hnext; [exact Hco | reflexivity | reflexivity | done].
    + apply Hnext; [reflexivity | reflexivity | reflexivity | done].
    + apply Hnext; [exact Hco | reflexivity | reflexivity | done].
Qed.

(** The console after the loop: one line for each page whose transform
    failed, and nothing else. *)
Lemma colorizeAll_loop_console (n i : nat) (run : Run) (e : ConsoleEntry) :
  let run' := snd (colorizeAll_loop br cl doc n i run) in
  let stop := first_render_failure br cl doc n i in
  e ∈ run_console run'
  <-> e ∈ run_console run
      \/ exists j message,
           e = PageError j message /\ (i <= j < stop)%nat
           /\ page_outcome br cl doc j = TransformFailed message.
Proof.
  revert i run. induction n as [|n IH]; intros i run; cbn zeta.
  - cbn. split; [by left |]. intros [H | (j & msg & _ & Hj & _)]; [done | lia].
  - rewrite colorizeAll_loop_step. cbn [first_render_failure].
    pose proof (first_render_failure_bounds n (S i)) as Hb.
    destruct (page_outcome br cl doc i) eqn:E.
    + cbn. split; [by left |].
      intros [H | (j & msg & _ & Hj & _)]; [done | lia].
    + rewrite IH. cbn [run_console console_error suspend enter_page with_state].
      rewrite elem_of_app, list_elem_of_singleton. split.
      * intros [[H | ->] | (j & msg & -> & Hj & Ho)].
        -- by left.
        -- right. exists i, message. repeat split; [lia | lia | done].
        -- right. exists j, msg. repeat split; [lia | lia | done].
      * intros [H | (j & msg & -> & Hj & Ho)]; [by left; left |].
        destruct (decide (j = i)) as [-> | Hne].
        -- left; right. rewrite E in Ho. by injection Ho as ->.
        -- right. exists j, msg. repeat split; [lia | lia | done].
    + rewrite IH. cbn [run_console store_page suspend enter_page with_state].
      split.
      * intros [H | (j & msg & -> & Hj & Ho)]; [by left |].
        right. exists j, msg. repeat split; [lia | lia | done].
      * intros [H | (j & msg & -> & Hj & Ho)]; [by left |].
        destruct (decide (j = i)) as [-> | Hne]; [congruence |].
        right. exists j, msg. repeat split; [lia | lia | done].
    + rewrite IH. cbn [run_console suspend enter_page with_state].
      split.
      * intros [H | (j & msg & -> & Hj & Ho)]; [by left |].
        right. exists j, msg. repeat split; [lia | lia | done].
      * intros [H | (j & msg & -> & Hj & Ho)]; [by left |].
        destruct (decide (j = i)) as [-> | Hne]; [congruence |].
        right. exists j, msg. repeat split; [lia | lia | done].
Qed.

(** The loop writes the progress and the cache only. *)
Lemma colorizeAll_loop_frame (n i : nat) (run : Run) :
  let s' := run_state (snd (colorizeAll_loop br cl doc n i run)) in
  appError s' = appError (run_state run)
  /\ isProcessing s' = isProcessing (run_state run).
Proof.
  revert i run. induction n as [|n IH]; intros i run; cbn zeta; [done |].
  rewrite colorizeAll_loop_step.
  destruct (page_outcome br cl doc i); [done | | |];
    destruct (IH (S i) ltac:(first
      [ exact (console_error (PageError i message) (suspend (enter_page cl i run)))
      | exact (store_page i d (suspend (enter_page cl i run)))
      | exact (suspend (enter_page cl i run)) ])) as [H1 H2].
  all: split; [rewrite H1 | rewrite H2]; reflexivity.
Qed.

End BatchRun.

(** ** [handleColorizeAll]: claims *)

Lemma handleColorizeAll_unfold (br : Browser) (st : AppState)
    (doc : PDFDocumentProxy) :
  pdfDoc st = Some doc ->
  let res := colorizeAll_loop br st doc (numPages st) 1 (batch_start st) in
  handleColorizeAll br st
  = with_state (fun s => setBatchProgress None (setIsProcessing false s))
      (if fst res then snd res
       else console_error BatchException
              (with_state
                 (setError (Some "Batch processing stopped due to an error."%string))
                 (snd res))).
Proof.
  intros Hdoc. unfold handleColorizeAll. rewrite Hdoc. cbn zeta.
  fold (batch_start st).
  by destruct (colorizeAll_loop br st doc (numPages st) 1 (batch_start st)).
Qed.

Lemma batch_start_coherent (st : AppState) : coherent (batch_start st).
Proof. reflexivity. Qed.

(** The cache, the states on display and the console of a whole run, in
    terms of the first page whose render fails. *)
Lemma handleColorizeAll_spec (br : Browser) (st : AppState)
    (doc : PDFDocumentProxy) :
  pdfDoc st = Some doc ->
  let f := first_render_failure br st doc (numPages st) 1 in
  let final := handleColorizeAll br st in
  colorizedPages (run_state final)
  = cache_after br st doc (f - 1) 1 (colorizedPages st)
  /\ (forall s, s ∈ run_observed final ->
        exists j, (1 <= j <= numPages st)%nat /\ (j <= f)%nat
          /\ batchProgress s = Some (j, numPages st)
          /\ colorizedPages s
             = cache_after br st doc (j - 1) 1 (colorizedPages st))
  /\ (forall j, (1 <= j <= numPages st)%nat -> (j <= f)%nat ->
        exists s, s ∈ run_observed final
          /\ batchProgress s = Some (j, numPages st))
  /\ (forall j message,
        PageError j message ∈ run_console final
        <-> (1 <= j < f)%nat
            /\ page_outcome br st doc j = TransformFailed message)
  /\ (BatchException ∈ run_console final <-> (f <= numPages st)%nat)
  /\ appError (run_state final)
     = (if decide (f <= numPages st)%nat
        then Some "Batch processing stopped due to an error."%string
        else None)
  /\ batchProgress (run_state final) = None
  /\ isProcessing (run_state final) = false.
Proof.
  intros Hdoc. cbn zeta. rewrite (handleColorizeAll_unfold br st doc Hdoc).
  cbn zeta.
  pose proof (first_render_failure_bounds br st doc (numPages st) 1) as Hb.
  pose proof (colorizeAll_loop_completed br st doc (numPages st) 1 (batch_start st))
    as Hc.
  destruct (colorizeAll_loop_map br st doc (numPages st) 1 (batch_start st)
              (batch_start_coherent st)) as [Hco Hmap].
  destruct (colorizeAll_loop_observed br st doc (numPages st) 1 (batch_start st)
              (batch_start_coherent st)) as (Hobs1 & _ & Hobs2).
  pose proof (colorizeAll_loop_console br st doc (numPages st) 1 (batch_start st))
    as Hcons.
  destruct (colorizeAll_loop_frame br st doc (numPages st) 1 (batch_start st))
    as [Herr Hproc].
  cbn zeta in *.
  set (res := colorizeAll_loop br st doc (numPages st) 1 (batch_start st)) in *.
  set (f := first_render_failure br st doc (numPages st) 1) in *.
  assert (forall e, e ∈ run_console (snd res) -> e <> BatchException) as Hnb.
  { intros e He. apply Hcons in He as [He | (j & msg & -> & _)]; [| done].
    by apply elem_of_nil in He. }
  assert (colorizedPages
            (run_state
               (with_state (fun s => setBatchProgress None (setIsProcessing false s))
                  (if fst res then snd res
                   else console_error BatchException
                          (with_state
                             (setError
                                (Some "Batch processing stopped due to an error."%string))
                             (snd res)))))
          = newColorizedMap (snd res)) as Hfinal
    by (rewrite <- Hco; by destruct (fst res)).
  split; [by rewrite Hfinal, Hmap |].
  split.
  { intros s Hs.
    assert (s ∈ run_observed (snd res)) as Hs' by (by destruct (fst res)).
    destruct (Hobs1 s Hs') as [Hin | (j & Hj & Hjf & Hp & Hcache)];
      [by apply elem_of_nil in Hin |].
    exists j. repeat split; try lia; done. }
  split.
  { intros j Hj Hjf. destruct (Hobs2 j ltac:(lia) Hjf) as (s & Hs & Hp).
    exists s. split; [by destruct (fst res) | done]. }
  split.
  { intros j msg.
    assert (PageError j msg ∈ run_console (snd res)
            <-> (1 <= j < f)%nat
                /\ page_outcome br st doc j = TransformFailed msg) as Hiff.
    { rewrite Hcons. split.
      - intros [Hin | (j' & msg' & [= -> ->] & Hj & Ho)];
          [by apply elem_of_nil in Hin | done].
      - intros [Hj Ho]. right. by exists j, msg. }
    rewrite <- Hiff. destruct (fst res); [reflexivity |].
    cbn [with_state console_error run_console].
    rewrite elem_of_app, list_elem_of_singleton. split; [| by left].
    by intros [H | H]. }
  split.
  { destruct (fst res) eqn:Efst; symmetry in Hc.
    - apply bool_decide_eq_true_1 in Hc. split; [| lia].
      intros Hin. by apply Hnb in Hin.
    - apply bool_decide_eq_false_1 in Hc. split; [lia |]. intros _.
      cbn [with_state console_error run_console].
      apply elem_of_app; right. by apply list_elem_of_singleton. }
  split.
  { destruct (fst res) eqn:Efst; symmetry in Hc.
    - apply bool_decide_eq_true_1 in Hc.
      destruct (decide (f <= numPages st)%nat); [lia |].
      cbn [with_state run_state]. exact Herr.
    - apply bool_decide_eq_false_1 in Hc.
      destruct (decide (f <= numPages st)%nat); [| lia]. reflexivity. }
  split; by destruct (fst res).
Qed.

(** C2, as the code has it: in a batch run over N pages, a page whose
    transform fails is logged and the run goes on with the next page, while
    a page whose render fails ends the loop.  With f the first page whose
    render fails (N + 1 when there is none), every page before f whose
    transform succeeds is in the cache, the entry of every other page is
    left as it was before the run, one line is logged for each page before
    f whose transform failed, the progress shows the pages 1 to min(f, N),
    so it reaches (N, N) when no page before N fails to render, and it is
    absent at the end; when f <= N the error of the session is set and the
    pages after f are not processed. *)
Theorem C2_batch_failure_isolation (br : Browser) (st : AppState)
    (doc : PDFDocumentProxy) :
  pdfDoc st = Some doc ->
  let N := numPages st in
  let f := first_render_failure br st doc N 1 in
  let final := handleColorizeAll br st in
  (1 <= f <= N + 1)%nat
  /\ ((f <= N)%nat -> page_outcome br st doc f = RenderFailed)
  /\ (forall j, (1 <= j < f)%nat -> page_outcome br st doc j <> RenderFailed)
  /\ (forall j,
        colorizedPages (run_state final) !! j
        = if decide (1 <= j < f)%nat then
            match page_outcome br st doc j with
            | Colorized d => Some d
            | _ => colorizedPages st !! j
            end
          else colorizedPages st !! j)
  /\ (forall j message,
        PageError j message ∈ run_console final
        <-> (1 <= j < f)%nat
            /\ page_outcome br st doc j = TransformFailed message)
  /\ (forall j, (1 <= j <= N)%nat -> (j <= f)%nat ->
        exists s, s ∈ run_observed final /\ batchProgress s = Some (j, N))
  /\ (forall s, s ∈ run_observed final ->
        exists j, (1 <= j <= N)%nat /\ (j <= f)%nat
          /\ batchProgress s = Some (j, N))
  /\ appError (run_state final)
     = (if decide (f <= N)%nat
        then Some "Batch processing stopped due to an error."%string
        else None)
  /\ (BatchException ∈ run_console final <-> (f <= N)%nat)
  /\ batchProgress (run_state final) = None.
Proof.
  intros Hdoc. cbn zeta.
  destruct (handleColorizeAll_spec br st doc Hdoc)
    as (Hcache & Hobs1 & Hobs2 & Hlog & Hexn & Herr & Hprog & _).
  pose proof (first_render_failure_bounds br st doc (numPages st) 1) as Hb.
  split; [lia |].
  split; [intros Hf; apply at_first_render_failure; lia |].
  split; [intros j Hj; by apply (before_first_render_failure br st doc (numPages st) 1) |].
  split.
  { intros j. rewrite Hcache, cache_after_lookup.
    destruct (decide (1 <= j < 1 + (first_render_failure br st doc (numPages st) 1 - 1))%nat);
      destruct (decide (1 <= j < first_render_failure br st doc (numPages st) 1)%nat);
      try lia; reflexivity. }
  split; [exact Hlog |]. split; [exact Hobs2 |].
  split.
  { intros s Hs. destruct (Hobs1 s Hs) as (j & Hj & Hjf & Hp & _). by exists j. }
  split; [exact Herr |]. split; [exact Hexn | exact Hprog].
Qed.

(** C2, evaluated: four pages, the image of page 3 cannot be loaded by the
    transform.  Pages 1, 2 and 4 are cached, page 3 is absent and logged,
    and the progress reaches (4, 4). *)
Lemma C2_batch_failure_isolation_witness :
  let final := handleColorizeAll sample_browser (sample_state 4 [] [3%nat]) in
  is_Some (colorizedPages (run_state final) !! 4%nat)
  /\ colorizedPages (run_state final) !! 3%nat = None
  /\ PageError 3 "Failed to load image data." ∈ run_console final
  /\ (exists s, s ∈ run_observed final /\ batchProgress s = Some (4%nat, 4%nat))
  /\ appError (run_state final) = None
  /\ batchProgress (run_state final) = None.
Proof.
  cbn zeta.
  destruct (C2_batch_failure_isolation sample_browser (sample_state 4 [] [3%nat])
              (sample_doc 4 [] [3%nat]) eq_refl)
    as (_ & _ & _ & Hcache & Hlog & Hreach & _ & Herr & _ & Hprog).
  split; [rewrite Hcache; vm_compute; eauto |].
  split; [rewrite Hcache; vm_compute; reflexivity |].
  split; [apply Hlog; vm_compute; split; [lia | reflexivity] |].
  split; [apply Hreach; vm_compute; lia |].
  split; [rewrite Herr; vm_compute; reflexivity | exact Hprog].
Defined.

(** C2 as the specification states it fails for a render failure: with four
    pages of which page 3 cannot be rendered, the loop ends at page 3.
    Page 4, which would have been colorized, is not in the cache, and the
    progress never shows (4, 4).  And a page whose transform fails is not
    left absent when the cache had an artifact for it before the run: the
    old artifact stays. *)
Lemma C2_counterexample :
  let st := sample_state 4 [3%nat] [] in
  let final := handleColorizeAll sample_browser st in
  let st' :=
    setColorizedPages {[ 3%nat := artifact "old" 10 20 ]}
      (sample_state 4 [] [3%nat]) in
  let final' := handleColorizeAll sample_browser st' in
  page_outcome sample_browser st (sample_doc 4 [3%nat] []) 3 = RenderFailed
  /\ (exists d, page_outcome sample_browser st (sample_doc 4 [3%nat] []) 4
                = Colorized d)
  /\ colorizedPages (run_state final) !! 4%nat = None
  /\ map batchProgress (run_observed final)
     = [Some (1, 4); Some (1, 4); Some (2, 4); Some (2, 4); Some (3, 4)]%nat
  /\ run_console final = [BatchException]
  /\ appError (run_state final)
     = Some "Batch processing stopped due to an error."%string
  /\ run_console final' = [PageError 3 "Failed to load image data."]
  /\ colorizedPages (run_state final') !! 3%nat = Some (artifact "old" 10 20).
Proof.
  cbn zeta. split; [vm_compute; reflexivity |].
  split; [vm_compute; eauto |].
  split; [vm_compute; reflexivity |].
  split; [vm_compute; reflexivity |].
  split; [vm_compute; reflexivity |].
  split; [vm_compute; reflexivity |].
  split; vm_compute; reflexivity.
Qed.

(** C5, as the code has it: in a batch run the progress (i, numPages) is
    published at the start of the iteration of page i, before the page is
    rendered and transformed, and the cache is updated for page i only
    after a successful transform.  So at every point where the handler is
    suspended the progress shows some page i, the cache holds the artifact
    of every page before i that was colorized, and the entry of page i, as
    of every later page, is still the one from before the run; the artifact
    of a colorized page i is in the cache once the run is over. *)
Theorem C5_progress_precedes_cache_update (br : Browser) (st : AppState)
    (doc : PDFDocumentProxy) (k : nat) (s : AppState) :
  pdfDoc st = Some doc ->
  let final := handleColorizeAll br st in
  run_observed final !! k = Some s ->
  exists i,
    batchProgress s = Some (i, numPages st)
    /\ (1 <= i <= numPages st)%nat
    /\ (forall j,
          colorizedPages s !! j
          = if decide (1 <= j < i)%nat then
              match page_outcome br st doc j with
              | Colorized d => Some d
              | _ => colorizedPages st !! j
              end
            else colorizedPages st !! j)
    /\ colorizedPages s !! i = colorizedPages st !! i
    /\ (forall d, page_outcome br st doc i = Colorized d ->
          colorizedPages (run_state final) !! i = Some d).
Proof.
  intros Hdoc final Hk. subst final.
  destruct (handleColorizeAll_spec br st doc Hdoc) as (Hcache & Hobs1 & _).
  pose proof (first_render_failure_bounds br st doc (numPages st) 1) as Hb.
  apply list_elem_of_lookup_2 in Hk.
  destruct (Hobs1 s Hk) as (i & Hi & Hif & Hp & Hc).
  exists i. split; [exact Hp |]. split; [exact Hi |].
  assert (forall j,
            colorizedPages s !! j
            = if decide (1 <= j < i)%nat then
                match page_outcome br st doc j with
                | Colorized d => Some d
                | _ => colorizedPages st !! j
                end
              else colorizedPages st !! j) as Hlook.
  { intros j. rewrite Hc, cache_after_lookup.
    destruct (decide (1 <= j < 1 + (i - 1))%nat);
      destruct (decide (1 <= j < i)%nat); try lia; reflexivity. }
  split; [exact Hlook |]. split.
  - rewrite Hlook. destruct (decide (1 <= i < i)%nat); [lia | reflexivity].
  - intros d Hd. rewrite Hcache, cache_after_lookup.
    assert (i <> first_render_failure br st doc (numPages st) 1) as Hne.
    { intros ->.
      rewrite (at_first_render_failure br st doc (numPages st) 1) in Hd by lia.
      discriminate Hd. }
    destruct (decide (1 <= i < 1 + (first_render_failure br st doc (numPages st) 1 - 1))%nat);
      [by rewrite Hd | lia].
Qed.

(** C5, evaluated: two pages; at the first suspension the progress shows
    page 1 and the cache has no page 1. *)
Lemma C5_progress_precedes_cache_update_witness :
  let final := handleColorizeAll sample_browser (sample_state 2 [] []) in
  exists s i,
    run_observed final !! 0%nat = Some s
    /\ batchProgress s = Some (i, 2%nat)
    /\ colorizedPages s !! i = None.
Proof.
  cbn zeta.
  destruct (run_observed (handleColorizeAll sample_browser (sample_state 2 [] []))
            !! 0%nat) as [s|] eqn:Hs; [| vm_compute in Hs; discriminate Hs].
  destruct (C5_progress_precedes_cache_update sample_browser
              (sample_state 2 [] []) (sample_doc 2 [] []) 0 s eq_refl Hs)
    as (i & Hp & _ & _ & Hc & _).
  exists s, i. split; [reflexivity |]. split; [exact Hp |].
  rewrite Hc. apply lookup_empty.
Defined.

(** C5 as the specification states it fails: in a run over two pages that
    both succeed, the handler is suspended with the progress at (1, 2)
    while the cache has no artifact for page 1; the artifact is there when
    the run is over. *)
Lemma C5_counterexample :
  let final := handleColorizeAll sample_browser (sample_state 2 [] []) in
  exists s,
    run_observed final !! 0%nat = Some s
    /\ batchProgress s = Some (1%nat, 2%nat)
    /\ colorizedPages s !! 1%nat = None
    /\ is_Some (colorizedPages (run_state final) !! 1%nat).
Proof.
  cbn zeta.
  destruct (run_observed (handleColorizeAll sample_browser (sample_state 2 [] []))
            !! 0%nat) as [s|] eqn:Hs; [| vm_compute in Hs; discriminate Hs].
  exists s. split; [reflexivity |].
  vm_compute in Hs. injection Hs as <-.
  split; [reflexivity |]. split; [vm_compute; reflexivity |].
  vm_compute. eauto.
Qed.

(** ** Exact arithmetic against binary64 *)

(** On every position of the boldness slider the black and white points
    computed in binary64 are the exact ones. *)
Lemma b64_parameters_on_slider :
  forallb (fun b =>
             b64_floor_is (b64_blackPoint_arg b) (blackPoint (inject_Z b))
             && b64_floor_is (b64_whitePoint_arg b)
                  (255 - whitePoint (inject_Z b)))
    slider_values = true.
Proof. vm_compute. reflexivity. Qed.

(** The margin of the example: 10 percent of a width of 100. *)
Lemma b64_margin_example :
  b64_floor_is (b64_marginPx_arg 10 100) (marginPx 10 100) = true
  /\ marginPx 10 100 = 10%Z.
Proof. split; vm_compute; reflexivity. Qed.

(** Off the slider the two can differ: for a boldness of 29 the product
    (29/100) * 200 is just below 58 in binary64, so the engine's black point
    is 57 where exact arithmetic gives 58. *)
Lemma b64_blackPoint_29 :
  b64_floor_is (b64_blackPoint_arg 29) 57 = true /\ blackPoint 29 = 58%Z.
Proof. split; vm_compute; reflexivity. Qed.

(** * Part III: further properties of the code *)

(** ** [hexToRgb] on the usual notation *)

Lemma hex_digit_char_value (upper : bool) (d : Z) :
  (0 <= d <= 15)%Z ->
  hex_class (hex_digit_char upper d) = true
  /\ digit_value (hex_digit_char upper d) = Some d.
Proof.
  intros Hd.
  assert (d = 0 \/ d = 1 \/ d = 2 \/ d = 3 \/ d = 4 \/ d = 5 \/ d = 6 \/ d = 7
          \/ d = 8 \/ d = 9 \/ d = 10 \/ d = 11 \/ d = 12 \/ d = 13 \/ d = 14
          \/ d = 15)%Z as Hcases by lia.
  repeat (destruct Hcases as [-> | Hcases]); try subst d;
    destruct upper; split; reflexivity.
Qed.

Lemma byte_hex_digits (v : Z) :
  is_byte v -> (0 <= v / 16 <= 15)%Z /\ (0 <= v mod 16 <= 15)%Z.
Proof.
  intros [H0 H1]. split.
  - split; [apply Z.div_pos; lia |].
    apply Z.lt_succ_r, Z.div_lt_upper_bound; lia.
  - pose proof (Z.mod_pos_bound v 16). lia.
Qed.

Lemma parseInt16_byte_hex (upper : bool) (v : Z) :
  is_byte v -> parseInt16 (byte_hex upper v) = v.
Proof.
  intros Hv. destruct (byte_hex_digits v Hv) as [Hhi Hlo].
  destruct (hex_digit_char_value upper _ Hhi) as [_ Ehi].
  destruct (hex_digit_char_value upper _ Hlo) as [_ Elo].
  unfold parseInt16, byte_hex. cbn [parse_digits]. rewrite Ehi, Elo.
  pose proof (Z.div_mod v 16). lia.
Qed.

Lemma drop_hash_hex (c : ascii) (rest : string) :
  hex_class c = true -> drop_hash (String c rest) = String c rest.
Proof.
  intros Hc. destruct (drop_hash_cases (String c rest)) as [(r & E & _) | [E _]];
    [| exact E].
  injection E as -> _. by rewrite hash_not_hex in Hc.
Qed.

(** X1: [hexToRgb] reads the usual notation of a colour exactly: for
    channels r, g, b in 0..255, the six hexadecimal digits of (r, g, b), in
    lower or upper case and with or without the leading [#], are parsed back
    to (r, g, b). *)
Theorem X1_hexToRgb_reads_hex_notation (hash upper : bool) (c : RgbColor) :
  is_byte (rgb_r c) -> is_byte (rgb_g c) -> is_byte (rgb_b c) ->
  hexToRgb (rgb_hex hash upper c) = c.
Proof.
  intros Hr Hg Hb.
  destruct (byte_hex_digits _ Hr) as [Hr1 Hr2].
  destruct (byte_hex_digits _ Hg) as [Hg1 Hg2].
  destruct (byte_hex_digits _ Hb) as [Hb1 Hb2].
  destruct (hex_digit_char_value upper _ Hr1) as [Cr1 _].
  destruct (hex_digit_char_value upper _ Hr2) as [Cr2 _].
  destruct (hex_digit_char_value upper _ Hg1) as [Cg1 _].
  destruct (hex_digit_char_value upper _ Hg2) as [Cg2 _].
  destruct (hex_digit_char_value upper _ Hb1) as [Cb1 _].
  destruct (hex_digit_char_value upper _ Hb2) as [Cb2 _].
  assert (hexRegex_exec (rgb_hex hash upper c)
          = Some (byte_hex upper (rgb_r c), byte_hex upper (rgb_g c),
                  byte_hex upper (rgb_b c))) as E.
  { unfold hexRegex_exec, rgb_hex, byte_hex.
    destruct hash; cbv beta iota delta [String.append];
      [ change (drop_hash (String "#" ?r)) with r
      | rewrite drop_hash_hex by exact Cr1 ];
      unfold match_six; cbn [forallb];
      by rewrite Cr1, Cr2, Cg1, Cg2, Cb1, Cb2. }
  unfold hexToRgb. rewrite E, !parseInt16_byte_hex by done.
  by destruct c.
Qed.

(** X1, evaluated: (59, 130, 246) written in upper case with the [#]. *)
Lemma X1_hexToRgb_reads_hex_notation_witness :
  rgb_hex true true {| rgb_r := 59; rgb_g := 130; rgb_b := 246 |} = "#3B82F6"%string
  /\ hexToRgb (rgb_hex true true {| rgb_r := 59; rgb_g := 130; rgb_b := 246 |})
     = {| rgb_r := 59; rgb_g := 130; rgb_b := 246 |}.
Proof.
  split; [reflexivity |].
  apply (X1_hexToRgb_reads_hex_notation true true
           {| rgb_r := 59; rgb_g := 130; rgb_b := 246 |});
    unfold is_byte; simpl; lia.
Defined.

(** ** The active colour *)

Lemma valid_by_exec (s : string) :
  is_Some (hexRegex_exec s) -> valid_hex_color s.
Proof. apply hexRegex_exec_valid. Qed.

(** X2: the colour that the handlers pass to [colorizeImage] is the custom
    colour when the custom theme is selected and the table's colour of the
    selected theme otherwise (the fallback '#000000' of [getActiveHexColor]
    is never taken); every colour of the table is a valid colour, so the
    active colour is valid whenever the custom colour is. *)
Theorem X2_active_color (st : AppState) :
  (selectedTheme st = theme_custom -> getActiveHexColor st = customColorHex st)
  /\ (selectedTheme st <> theme_custom ->
      In (selectedTheme st, getActiveHexColor st) THEMES)
  /\ (forall t hex, In (t, hex) THEMES -> valid_hex_color hex)
  /\ (valid_hex_color (customColorHex st) -> valid_hex_color (getActiveHexColor st)).
Proof.
  assert (forall t hex, In (t, hex) THEMES -> valid_hex_color hex) as Hvalid.
  { intros t hex Hin. simpl in Hin.
    repeat (destruct Hin as [[= <- <-] | Hin];
            [apply valid_by_exec; vm_compute; eauto |]).
    destruct Hin. }
  assert (selectedTheme st <> theme_custom ->
          In (selectedTheme st, getActiveHexColor st) THEMES) as Htable.
  { intros Hne. unfold getActiveHexColor.
    destruct (selectedTheme st); try congruence; simpl; tauto. }
  split; [| split; [exact Htable | split; [exact Hvalid |]]].
  - intros E. unfold getActiveHexColor. by rewrite E.
  - intros Hc. destruct (selectedTheme st) eqn:E;
      first [ by unfold getActiveHexColor; rewrite E
            | eapply Hvalid, Htable; discriminate ].
Qed.

(** ** Thresholds and monotonicity of the transform *)

(** The raw quotient against 0 and 1, for a boldness in [0,100]. *)
Lemma normalized_sign (b L : Q) :
  (0 <= b)%Q -> (b <= 100)%Q ->
  ((L <= inject_Z (blackPoint b))%Q -> (normalized b L <= 0)%Q)
  /\ ((inject_Z (whitePoint b) <= L)%Q -> (1 <= normalized b L)%Q).
Proof.
  intros H0 H1. pose proof (normalized_divisor_positive b H0 H1) as Hd.
  unfold normalized.
  set (bp := blackPoint b) in *. set (wp := whitePoint b) in *.
  assert (45 <= inject_Z wp - inject_Z bp)%Q as Hd'.
  { rewrite Zle_Qle in Hd. unfold Z.sub in Hd.
    rewrite inject_Z_plus, inject_Z_opp in Hd.
    change (inject_Z 45) with 45%Q in Hd. lra. }
  set (d := (inject_Z wp - inject_Z bp)%Q) in *.
  assert (0 < / d)%Q as Hinv by (apply Qinv_lt_0_compat; lra).
  assert (d * / d == 1)%Q as Hone by (apply Qmult_inv_r; lra).
  unfold Qdiv. split; intros HL.
  - assert (0 <= (inject_Z bp - L) * / d)%Q
      by (apply Qmult_le_0_compat; lra).
    lra.
  - assert (0 <= (L - inject_Z bp - d) * / d)%Q
      by (apply Qmult_le_0_compat; [unfold d; lra | lra]).
    lra.
Qed.


Lemma blend_channel_one (c : Z) (t : Q) : (t == 1)%Q -> blend_channel c t = 255%Z.
Proof.
  intros E. rewrite (blend_channel_comp c t 1 E). unfold blend_channel.
  rewrite (Math_round_comp _ (inject_Z 255)) by (change (inject_Z 255) with 255%Q; ring).
  by rewrite Math_round_inject.
Qed.

(** X3: for a boldness in [0,100], a pixel with a non-zero alpha whose
    luminance is at most the black point becomes exactly the target colour,
    and one whose luminance is at least the white point becomes white
    (255, 255, 255), whatever [Math.pow] does; in particular a black pixel
    becomes the target colour and a white pixel stays white. *)
Theorem X3_black_and_white_points (pow : Q -> Q -> Q) (targetColorHex : string)
    (b : Q) (px : Pixel) :
  (0 <= b)%Q -> (b <= 100)%Q -> px_a px <> 0%Z ->
  let L := luminance (px_r px) (px_g px) (px_b px) in
  let target := hexToRgb targetColorHex in
  let out := colorize_pixel pow target b px in
  ((L <= inject_Z (blackPoint b))%Q ->
   out = {| px_r := rgb_r target; px_g := rgb_g target; px_b := rgb_b target;
            px_a := px_a px |})
  /\ ((inject_Z (whitePoint b) <= L)%Q ->
      out = {| px_r := 255; px_g := 255; px_b := 255; px_a := px_a px |})
  /\ (px_r px = 0%Z -> px_g px = 0%Z -> px_b px = 0%Z ->
      out = {| px_r := rgb_r target; px_g := rgb_g target; px_b := rgb_b target;
               px_a := px_a px |})
  /\ (px_r px = 255%Z -> px_g px = 255%Z -> px_b px = 255%Z ->
      out = {| px_r := 255; px_g := 255; px_b := 255; px_a := px_a px |}).
Proof.
  intros H0 H1 Ha. cbn zeta.
  destruct (normalized_sign b (luminance (px_r px) (px_g px) (px_b px)) H0 H1)
    as [Hlow Hhigh].
  destruct (hexToRgb_range targetColorHex) as (Hr & Hg & Hb).
  pose proof (blackPoint_range b H0 H1) as Hbp.
  pose proof (whitePoint_range b H0 H1) as Hwp.
  assert ((luminance (px_r px) (px_g px) (px_b px) <= inject_Z (blackPoint b))%Q ->
          colorize_pixel pow (hexToRgb targetColorHex) b px
          = {| px_r := rgb_r (hexToRgb targetColorHex);
               px_g := rgb_g (hexToRgb targetColorHex);
               px_b := rgb_b (hexToRgb targetColorHex);
               px_a := px_a px |}) as Hdark.
  { intros HL. specialize (Hlow HL).
    rewrite colorize_pixel_opaque by done. cbn zeta.
    destruct (blend_factor_cases pow b (luminance (px_r px) (px_g px) (px_b px)))
      as [[_ E]|[(Hc0 & _ & _)|[Hc _]]]; cbn zeta in *; [| lra | lra].
    by rewrite !blend_channel_zero. }
  assert ((inject_Z (whitePoint b) <= luminance (px_r px) (px_g px) (px_b px))%Q ->
          colorize_pixel pow (hexToRgb targetColorHex) b px
          = {| px_r := 255; px_g := 255; px_b := 255; px_a := px_a px |})
    as Hlight.
  { intros HL. specialize (Hhigh HL).
    rewrite colorize_pixel_opaque by done. cbn zeta.
    destruct (blend_factor_cases pow b (luminance (px_r px) (px_g px) (px_b px)))
      as [[Hc _]|[(_ & Hc1 & _)|[_ E]]]; cbn zeta in *; [lra | lra |].
    by rewrite !blend_channel_one. }
  split; [exact Hdark |]. split; [exact Hlight |]. split.
  - intros Er Eg Eb. apply Hdark. rewrite Er, Eg, Eb.
    assert (luminance 0 0 0 == 0)%Q as -> by reflexivity.
    change 0%Q with (inject_Z 0). rewrite <- Zle_Qle. lia.
  - intros Er Eg Eb. apply Hlight. rewrite Er, Eg, Eb.
    assert (luminance 255 255 255 == 255)%Q as -> by reflexivity.
    change 255%Q with (inject_Z 255). rewrite <- Zle_Qle. lia.
Qed.

(** X3, evaluated: at boldness 60 with #3B82F6, a dark grey pixel
    (luminance 80, black point 120). *)
Lemma X3_black_and_white_points_witness :
  colorize_pixel sample_pow (hexToRgb "#3B82F6") 60
    {| px_r := 80; px_g := 80; px_b := 80; px_a := 255 |}
  = {| px_r := 59; px_g := 130; px_b := 246; px_a := 255 |}.
Proof.
  refine (proj1 (X3_black_and_white_points sample_pow "#3B82F6" 60
                   {| px_r := 80; px_g := 80; px_b := 80; px_a := 255 |}
                   _ _ _) _).
  - vm_compute. discriminate.
  - vm_compute. discriminate.
  - discriminate.
  - vm_compute. discriminate.
Defined.






(** ** The shape of the result of the transform *)

Lemma colorize_pixel_alpha (pow : Q -> Q -> Q) (target : RgbColor) (b : Q)
    (px : Pixel) :
  px_a (colorize_pixel pow target b px) = px_a px.
Proof. unfold colorize_pixel. by destruct (px_a px =? 0)%Z. Qed.

(** X5: the transform keeps the shape of the image: the width, the height
    and the length of the pixel buffer are those of the input, the output
    has a pixel exactly where the input has one, and the alpha of every
    pixel, transparent or not, is the one of the input. *)
Theorem X5_image_shape_preserved (pow : Q -> Q -> Q) (targetColorHex : string)
    (b : Q) (imageData : ImageData) :
  let out := colorize_imageData pow targetColorHex b imageData in
  img_width out = img_width imageData
  /\ img_height out = img_height imageData
  /\ length (img_data out) = length (img_data imageData)
  /\ (forall k, pixel_at (img_data out) k = None
                <-> pixel_at (img_data imageData) k = None)
  /\ (forall k px, pixel_at (img_data imageData) k = Some px ->
        exists px', pixel_at (img_data out) k = Some px'
                    /\ px_a px' = px_a px).
Proof.
  cbn zeta. split; [reflexivity |]. split; [reflexivity |].
  split; [apply colorize_data_length |]. split.
  - intros k. rewrite colorize_imageData_pixel.
    by destruct (pixel_at (img_data imageData) k).
  - intros k px Hpx. rewrite colorize_imageData_pixel, Hpx.
    eexists. split; [reflexivity |]. apply colorize_pixel_alpha.
Qed.

(** ** The result of [colorizeImage] *)

(** X6: [colorizeImage] resolves with exactly one of an image and an error,
    never both and never neither.  The error is one of three non-empty
    messages and is the only result when the image does not load, the
    canvas has no context or a canvas call throws; otherwise the image is
    what the canvas encodes for the transformed pixels. *)
Theorem X6_colorizeImage_image_or_error (br : Browser)
    (base64Image targetColorHex : string) (b : Q) :
  let result := colorizeImage br base64Image targetColorHex b in
  (imageUrl result = None
   /\ truthy (error result) = error result
   /\ (error result = Some "Failed to load image data."%string
       \/ error result = Some "Browser Canvas context not available"%string
       \/ error result = Some "Failed to process image locally."%string)
   /\ (forall imageData url,
         canvas_load br base64Image = Pixels imageData ->
         canvas_toDataURL br
           (colorize_imageData (Math_pow br) targetColorHex b imageData)
         <> Some url))
  \/ (error result = None
      /\ exists imageData url,
           canvas_load br base64Image = Pixels imageData
           /\ canvas_toDataURL br
                (colorize_imageData (Math_pow br) targetColorHex b imageData)
              = Some url
           /\ imageUrl result = Some url).
Proof.
  cbn zeta. unfold colorizeImage.
  destruct (canvas_load br base64Image) as [| | |imageData] eqn:Eload.
  - left. repeat split; [tauto |]. intros im url [=].
  - left. repeat split; [tauto |]. intros im url [=].
  - left. repeat split; [tauto |]. intros im url [=].
  - destruct (canvas_toDataURL br
                (colorize_imageData (Math_pow br) targetColorHex b imageData))
      as [url|] eqn:Eurl.
    + right. split; [reflexivity |]. by exists imageData, url.
    + left. repeat split; [tauto |]. intros im url [= <-]. by rewrite Eurl.
Qed.

(** ** More on the batch run *)

(** A property of the state that the setters of the progress and of the
    cache keep holds in every state of the loop. *)
Lemma colorizeAll_loop_stable (P : AppState -> Prop) (br : Browser)
    (cl : AppState) (doc : PDFDocumentProxy) :
  (forall s v, P s -> P (setBatchProgress v s)) ->
  (forall s m, P s -> P (setColorizedPages m s)) ->
  forall (n i : nat) (run : Run),
    P (run_state run) -> Forall P (run_observed run) ->
    P (run_state (snd (colorizeAll_loop br cl doc n i run)))
    /\ Forall P (run_observed (snd (colorizeAll_loop br cl doc n i run))).
Proof.
  intros Hprog Hcache. induction n as [|n IH]; intros i run Hs Hobs; [done |].
  rewrite colorizeAll_loop_step.
  assert (P (run_state (enter_page cl i run))) as Hs1 by (by apply Hprog).
  assert (Forall P (run_observed (enter_page cl i run))) as Hobs1.
  { cbn. apply Forall_app. split; [done |]. by constructor. }
  assert (Forall P (run_observed (suspend (enter_page cl i run)))) as Hobs2.
  { cbn [suspend run_observed]. apply Forall_app. split; [done |].
    by constructor. }
  destruct (page_outcome br cl doc i).
  - done.
  - by apply IH.
  - apply IH; [by apply Hcache | done].
  - by apply IH.
Qed.

Lemma handleColorizeAll_stable (P : AppState -> Prop) (br : Browser)
    (st : AppState) (doc : PDFDocumentProxy) :
  pdfDoc st = Some doc ->
  (forall s v, P s -> P (setBatchProgress v s)) ->
  (forall s m, P s -> P (setColorizedPages m s)) ->
  P (run_state (batch_start st)) ->
  Forall P (run_observed (handleColorizeAll br st))
  /\ exists s, P s
       /\ (run_state (handleColorizeAll br st)
           = setBatchProgress None (setIsProcessing false s)
          \/ run_state (handleColorizeAll br st)
             = setBatchProgress None
                 (setIsProcessing false
                    (setError
                       (Some "Batch processing stopped due to an error."%string)
                       s))).
Proof.
  intros Hdoc Hprog Hcache Hstart.
  rewrite (handleColorizeAll_unfold br st doc Hdoc). cbn zeta.
  destruct (colorizeAll_loop_stable P br st doc Hprog Hcache (numPages st) 1
              (batch_start st) Hstart) as [Hs Hobs]; [constructor |].
  destruct (fst (colorizeAll_loop br st doc (numPages st) 1 (batch_start st))).
  - split; [exact Hobs |]. eexists. split; [exact Hs |]. by left.
  - split; [exact Hobs |]. eexists. split; [exact Hs |]. by right.
Qed.



Lemma handleColorizeAll_cache (br : Browser) (st : AppState) :
  forall j,
    colorizedPages (run_state (handleColorizeAll br st)) !! j
    = match pdfDoc st with
      | None => colorizedPages st !! j
      | Some doc =>
          if decide (1 <= j < first_render_failure br st doc (numPages st) 1)%nat
          then match page_outcome br st doc j with
               | Colorized d => Some d
               | _ => colorizedPages st !! j
               end
          else colorizedPages st !! j
      end.
Proof.
  intros j. destruct (pdfDoc st) as [doc|] eqn:Hdoc.
  - destruct (handleColorizeAll_spec br st doc Hdoc) as (Hcache & _).
    rewrite Hcache, cache_after_lookup.
    pose proof (first_render_failure_bounds br st doc (numPages st) 1).
    destruct (decide (1 <= j < 1 + (first_render_failure br st doc (numPages st) 1 - 1))%nat);
      destruct (decide (1 <= j < first_render_failure br st doc (numPages st) 1)%nat);
      try lia; reflexivity.
  - unfold handleColorizeAll. by rewrite Hdoc.
Qed.

(** X8: a batch run only adds to the page cache: a page that had an
    artifact before the run has one after it, an entry whose page number is
    not in 1..numPages is left untouched, and every entry that is new or
    changed belongs to a page in 1..numPages; so a cache whose page numbers
    are in 1..numPages stays such a cache. *)
Theorem X8_batch_grows_cache_within_document (br : Browser) (st : AppState) :
  let final := run_state (handleColorizeAll br st) in
  (forall k, is_Some (colorizedPages st !! k) ->
     is_Some (colorizedPages final !! k))
  /\ (forall k, colorizedPages final !! k <> colorizedPages st !! k ->
        (1 <= k <= numPages st)%nat)
  /\ ((forall k, is_Some (colorizedPages st !! k) -> (1 <= k <= numPages st)%nat) ->
      forall k, is_Some (colorizedPages final !! k) ->
        (1 <= k <= numPages final)%nat).
Proof.
  cbn zeta.
  assert (forall k,
            colorizedPages (run_state (handleColorizeAll br st)) !! k
            <> colorizedPages st !! k -> (1 <= k <= numPages st)%nat) as Hin.
  { intros k. rewrite handleColorizeAll_cache.
    destruct (pdfDoc st) as [doc|]; [| done].
    pose proof (first_render_failure_bounds br st doc (numPages st) 1).
    destruct (decide _); [lia | done]. }
  assert (numPages (run_state (handleColorizeAll br st)) = numPages st) as HN.
  { destruct (pdfDoc st) as [doc|] eqn:Hdoc.
    - destruct (handleColorizeAll_stable (fun s => numPages s = numPages st)
                  br st doc Hdoc) as [_ (s & Hs & [-> | ->])]; done.
    - unfold handleColorizeAll. by rewrite Hdoc. }
  split; [| split; [exact Hin |]].
  - intros k Hk. rewrite handleColorizeAll_cache.
    destruct (pdfDoc st) as [doc|]; [| done].
    destruct (decide _); [| done].
    by destruct (page_outcome br st doc k).
  - intros Hok k Hk. rewrite HN. rewrite handleColorizeAll_cache in Hk.
    destruct (pdfDoc st) as [doc|]; [| by apply Hok].
    pose proof (first_render_failure_bounds br st doc (numPages st) 1).
    destruct (decide _); [lia | by apply Hok].
Qed.

Lemma truthy_Some (o : option string) (v : string) :
  truthy o = Some v -> o = Some v.
Proof.
  destruct o as [w|]; [| done]. simpl.
  destruct (String.eqb w ""); [done | by intros [= ->]].
Qed.

(** X9: an artifact that a batch run adds to the cache for a page j is
    made from page j of the document: its width and height are those of the
    viewport of page j at the resolution scale of the session, and its
    image is what [colorizeImage] returns for the rendering of that page
    with the active colour and the boldness of the session. *)
Theorem X9_batch_artifact_provenance (br : Browser) (st : AppState)
    (doc : PDFDocumentProxy) (j : nat) (d : ColorizedPageData) :
  pdfDoc st = Some doc ->
  colorizedPages st !! j = None ->
  colorizedPages (run_state (handleColorizeAll br st)) !! j = Some d ->
  (1 <= j <= numPages st)%nat
  /\ exists page url,
       getPage doc j = Some page
       /\ page_render page (resolutionScale st) = Some url
       /\ data_width d = fst (getViewport page (resolutionScale st))
       /\ data_height d = snd (getViewport page (resolutionScale st))
       /\ imageUrl (colorizeImage br url (getActiveHexColor st) (boldness st))
          = Some (data_imageUrl d).
Proof.
  intros Hdoc Hold Hnew. rewrite handleColorizeAll_cache, Hdoc in Hnew.
  pose proof (first_render_failure_bounds br st doc (numPages st) 1) as Hb.
  destruct (decide _) as [Hj |]; [| congruence].
  split; [lia |].
  destruct (page_outcome br st doc j) as [| |d'|] eqn:Ho; try congruence.
  injection Hnew as ->.
  unfold page_outcome, renderPageToImage in Ho.
  destruct (getPage doc j) as [page|] eqn:Epage; [| discriminate Ho].
  destruct (negb (canvas_context2d br)); [discriminate Ho |].
  destruct (page_render page (resolutionScale st)) as [url|] eqn:Erender;
    [| discriminate Ho].
  cbn [dataUrl rendered_width rendered_height] in Ho.
  destruct (truthy (error (colorizeImage br url (getActiveHexColor st) (boldness st))));
    [discriminate Ho |].
  destruct (truthy (imageUrl (colorizeImage br url (getActiveHexColor st) (boldness st))))
    as [url'|] eqn:Eurl; [| discriminate Ho].
  injection Ho as <-. exists page, url.
  repeat split; try reflexivity; [exact Erender | by apply truthy_Some].
Qed.

(** X9, evaluated: page 1 of the sample document at scale 3 is 1836 by
    2376. *)
Lemma X9_batch_artifact_provenance_witness :
  exists d,
    colorizedPages (run_state (handleColorizeAll sample_browser (sample_state 2 [] [])))
    !! 1%nat = Some d
    /\ (data_width d == 1836)%Q /\ (data_height d == 2376)%Q.
Proof.
  destruct (colorizedPages
              (run_state (handleColorizeAll sample_browser (sample_state 2 [] [])))
            !! 1%nat) as [d|] eqn:Hd; [| vm_compute in Hd; discriminate Hd].
  destruct (X9_batch_artifact_provenance sample_browser (sample_state 2 [] [])
              (sample_doc 2 [] []) 1 d eq_refl (lookup_empty _) Hd)
    as (_ & page & url & Hpage & _ & Hw & Hh & _).
  exists d. split; [reflexivity |].
  vm_compute in Hpage. injection Hpage as <-.
  rewrite Hw, Hh. split; reflexivity.
Defined.

Lemma handleColorizeAll_same_settings (br : Browser) (st : AppState)
    (doc : PDFDocumentProxy) :
  pdfDoc st = Some doc ->
  same_settings st (run_state (handleColorizeAll br st)).
Proof.
  intros Hdoc.
  destruct (handleColorizeAll_stable (same_settings st) br st doc Hdoc)
    as [_ (s & Hs & Hfinal)];
    [by intros s v ? | by intros s m ? | by repeat split |].
  destruct Hs as (? & ? & ? & ? & ? & ? & ? & ?).
  destruct Hfinal as [-> | ->]; by repeat split.
Qed.

(** The outcome of a page depends on the state only through the scale, the
    boldness and the active colour. *)
Lemma page_outcome_ext (br : Browser) (cl cl' : AppState)
    (doc : PDFDocumentProxy) (j : nat) :
  same_settings cl cl' ->
  page_outcome br cl' doc j = page_outcome br cl doc j.
Proof.
  intros (_ & _ & _ & Ht & Hc & Hs & Hb & _). unfold page_outcome.
  assert (getActiveHexColor cl' = getActiveHexColor cl) as ->
    by (unfold getActiveHexColor; by rewrite Ht, Hc).
  by rewrite Hs, Hb.
Qed.

Lemma first_render_failure_ext (br : Browser) (cl cl' : AppState)
    (doc : PDFDocumentProxy) (n i : nat) :
  same_settings cl cl' ->
  first_render_failure br cl' doc n i = first_render_failure br cl doc n i.
Proof.
  intros H. revert i. induction n as [|n IH]; intros i; [reflexivity |].
  cbn [first_render_failure]. by rewrite (page_outcome_ext br cl cl' doc i H), IH.
Qed.

(** X10: a batch run is idempotent on the page cache: started again from
    the state that a run has left, with the same host, a second run leaves
    the cache as the first one left it. *)
Theorem X10_batch_idempotent (br : Browser) (st : AppState) :
  let once := run_state (handleColorizeAll br st) in
  let twice := run_state (handleColorizeAll br once) in
  colorizedPages twice = colorizedPages once.
Proof.
  cbn zeta. destruct (pdfDoc st) as [doc|] eqn:Hdoc.
  - pose proof (handleColorizeAll_same_settings br st doc Hdoc) as Hsame.
    apply map_eq. intros j.
    rewrite (handleColorizeAll_cache br (run_state (handleColorizeAll br st)) j).
    destruct Hsame as (Hf & Hd & HN & Hrest).
    rewrite Hd, Hdoc, HN.
    assert (same_settings st (run_state (handleColorizeAll br st))) as Hsame
      by (split; [exact Hf | split; [exact Hd | split; [exact HN | exact Hrest]]]).
    rewrite (first_render_failure_ext br st _ doc _ _ Hsame).
    rewrite (page_outcome_ext br st _ doc j Hsame).
    rewrite (handleColorizeAll_cache br st j), Hdoc.
    destruct (decide _); [| reflexivity].
    by destruct (page_outcome br st doc j).
  - assert (handleColorizeAll br st
            = {| run_state := st; newColorizedMap := colorizedPages st;
                 run_observed := []; run_console := [] |}) as E
      by (unfold handleColorizeAll; by rewrite Hdoc).
    rewrite E. cbn [run_state]. by rewrite E.
Qed.

(** ** A batch run followed by a download *)






(** ** The geometry of the downloaded pages *)

Lemma spec_marginPx_range (m w : Q) :
  (0 <= m)%Q -> (m <= 50)%Q -> (0 <= w)%Q ->
  (0 <= spec_marginPx m w)%Z
  /\ (inject_Z (spec_marginPx m w) <= w * m / 100)%Q
  /\ (inject_Z (2 * spec_marginPx m w) <= w)%Q.
Proof.
  intros Hm0 Hm50 Hw. unfold spec_marginPx.
  assert (0 <= w * m)%Q as Hwm by (apply Qmult_le_0_compat; lra).
  assert (0 <= w * (50 - m))%Q as Hwm' by (apply Qmult_le_0_compat; lra).
  pose proof (Qfloor_le (w * m / 100)) as Hfl.
  split; [| split].
  - change 0%Z with (Qfloor 0). apply Qfloor_resp_le.
    unfold Qdiv. apply Qmult_le_0_compat; [exact Hwm | discriminate].
  - exact Hfl.
  - rewrite inject_Z_mult. change (inject_Z 2) with 2%Q.
    set (F := inject_Z (Qfloor (w * m / 100))) in *.
    assert (w * m / 100 == (w * m) * (1 # 100))%Q as E by field.
    set (X := (w * m / 100)%Q) in *.
    set (wm := (w * m)%Q) in *.
    assert (w * (50 - m) == 50 * w - wm)%Q as E' by (unfold wm; ring).
    clearbody F X wm. lra.
Qed.

(** X12: with a margin between 0 and 50 percent and artifacts of non-negative
    width, every page of the downloaded document has a custom format (the
    blank A4 page of the writer is gone) and carries one image, placed at a
    non-negative offset that is the same number of pixels on the four sides
    of the image, so that the image lies centred within the page; the
    page is at most twice as wide as the image. *)
Theorem X12_download_layout (st : AppState) (name : string) (doc : Document) :
  (0 <= marginPercent st)%Q -> (marginPercent st <= 50)%Q ->
  (forall k d, colorizedPages st !! k = Some d -> (0 <= data_width d)%Q) ->
  handleDownloadPDF st = Saved name doc ->
  Forall (fun pg =>
            exists W H im,
              page_format pg = Custom W H
              /\ page_images pg = [im]
              /\ (0 <= placed_x im)%Q
              /\ placed_y im = placed_x im
              /\ (placed_x im + placed_width im + placed_x im == W)%Q
              /\ (placed_y im + placed_height im + placed_y im == H)%Q
              /\ (W <= 2 * placed_width im)%Q) doc.
Proof.
  intros Hm0 Hm50 Hw Hsave. rewrite handleDownloadPDF_pages in Hsave.
  destruct (decide _) as [| _]; [discriminate Hsave |].
  injection Hsave as _ <-.
  apply Forall_forall. intros pg Hpg.
  change (map ?f ?l) with (f <$> l) in Hpg.
  apply list_elem_of_fmap in Hpg as ([k d] & -> & Hkd).
  apply elem_of_sortedPages in Hkd. cbn [snd].
  destruct (spec_marginPx_range (marginPercent st) (data_width d) Hm0 Hm50
              (Hw k d Hkd)) as (Hp0 & _ & Hp2).
  unfold spec_page. cbn zeta.
  eexists _, _, _. split; [reflexivity |]. split; [reflexivity |].
  cbn [placed_x placed_y placed_width placed_height].
  rewrite inject_Z_mult in *. change (inject_Z 2) with 2%Q in *.
  assert (0 <= inject_Z (spec_marginPx (marginPercent st) (data_width d)))%Q
    as Hq by (change 0%Q with (inject_Z 0); by rewrite <- Zle_Qle).
  repeat split; try lra.
Qed.

(** X12, evaluated at a margin of 10 percent on the sample artifacts. *)
Lemma X12_download_layout_witness :
  exists doc,
    handleDownloadPDF (sample_download_state 10 pages_5_2)
    = Saved (download_name (sample_download_state 10 pages_5_2)) doc
    /\ Forall (fun pg =>
                 exists W H im,
                   page_format pg = Custom W H
                   /\ page_images pg = [im]
                   /\ (0 <= placed_x im)%Q
                   /\ placed_y im = placed_x im
                   /\ (placed_x im + placed_width im + placed_x im == W)%Q
                   /\ (placed_y im + placed_height im + placed_y im == H)%Q
                   /\ (W <= 2 * placed_width im)%Q) doc.
Proof.
  eexists. split; [vm_compute; reflexivity |].
  refine (X12_download_layout (sample_download_state 10 pages_5_2) _ _ _ _ _ _).
  - vm_compute. discriminate.
  - vm_compute. discriminate.
  - intros k d Hk.
    assert (d = artifact "five" 300 400 \/ d = artifact "two" 100 200)
      as [-> | ->].
    { apply elem_of_sortedPages in Hk.
      assert (sortedPages (colorizedPages (sample_download_state 10 pages_5_2))
              = [(2%nat, artifact "two" 100 200);
                 (5%nat, artifact "five" 300 400)]) as E
        by (vm_compute; reflexivity).
      rewrite E in Hk.
      apply elem_of_cons in Hk as [[= _ ->] | Hk]; [by right |].
      apply elem_of_cons in Hk as [[= _ ->] | Hk]; [by left |].
      by apply elem_of_nil in Hk. }
    all: vm_compute; discriminate.
  - vm_compute. reflexivity.
Defined.

(** ** The controls of the viewer *)

Lemma type_custom_margin_range (x : Q) :
  (0 <= Qmin 50 (Qmax 0 x))%Q /\ (Qmin 50 (Qmax 0 x) <= 50)%Q
  /\ ((0 <= x)%Q -> (x <= 50)%Q -> (Qmin 50 (Qmax 0 x) == x)%Q)
  /\ ((x <= 0)%Q -> (Qmin 50 (Qmax 0 x) == 0)%Q)
  /\ ((50 <= x)%Q -> (Qmin 50 (Qmax 0 x) == 50)%Q).
Proof.
  destruct (Q.max_spec 0 x) as [[H1 E1] | [H1 E1]];
    destruct (Q.min_spec 50 (Qmax 0 x)) as [[H2 E2] | [H2 E2]];
    repeat split; intros; lra.
Qed.

(** X13: whatever number is typed in the custom margin field, the margin
    that is stored lies between 0 and 50 percent: a number in this range is
    stored as it is, a smaller one as 0 and a larger one as 50.  The options
    of the selector store 0, 5, 10 or 15, the option "custom" stores 10 and
    is the only one that shows the field.  Neither control touches the
    colorized pages. *)
Theorem X13_margin_controls (s : Session) (o : MarginOption) (x : Q) :
  let typed := type_custom_margin x s in
  let chosen := select_margin o s in
  ((0 <= marginPercent (appState typed))%Q
   /\ (marginPercent (appState typed) <= 50)%Q)
  /\ ((0 <= x)%Q -> (x <= 50)%Q -> (marginPercent (appState typed) == x)%Q)
  /\ ((x <= 0)%Q -> (marginPercent (appState typed) == 0)%Q)
  /\ ((50 <= x)%Q -> (marginPercent (appState typed) == 50)%Q)
  /\ In (marginPercent (appState chosen)) [0%Q; 5%Q; 10%Q; 15%Q]
  /\ (isCustomMargin chosen = true <-> o = margin_custom)
  /\ (o = margin_custom -> marginPercent (appState chosen) = 10%Q)
  /\ colorizedPages (appState typed) = colorizedPages (appState s)
  /\ colorizedPages (appState chosen) = colorizedPages (appState s).
Proof.
  cbn zeta. cbn [type_custom_margin with_app appState setMarginPercent marginPercent
                 colorizedPages].
  destruct (type_custom_margin_range x) as (H0 & H50 & Hin & Hlo & Hhi).
  split; [by split |]. split; [exact Hin |]. split; [exact Hlo |].
  split; [exact Hhi |].
  destruct o; cbn; (split; [tauto |]); (split; [split; [done | try done] |]);
    try done.
Qed.

(** X14: with the current page within 1..numPages, the page buttons keep it
    there and move it by exactly one page; at the first (last) page, and
    while a run is processing, the button does nothing; "next" followed by
    "previous", and "previous" followed by "next", come back to the same
    session. *)
Theorem X14_page_navigation (s : Session) :
  (1 <= currentPage s <= numPages (appState s))%nat ->
  let next := click_next_page s in
  let prev := click_previous_page s in
  ((1 <= currentPage next <= numPages (appState s))%nat
   /\ (1 <= currentPage prev <= numPages (appState s))%nat)
  /\ (currentPage next
      = if decide (currentPage s < numPages (appState s)
                   /\ isProcessing (appState s) = false)%nat
        then S (currentPage s) else currentPage s)
  /\ (currentPage prev
      = if decide (1 < currentPage s /\ isProcessing (appState s) = false)%nat
        then pred (currentPage s) else currentPage s)
  /\ (appState next = appState s /\ appState prev = appState s)
  /\ ((currentPage s < numPages (appState s))%nat ->
      click_previous_page next = s)
  /\ ((1 < currentPage s)%nat -> click_next_page prev = s).
Proof.
  intros Hc. cbn zeta.
  destruct s as [st c img cm rp]. cbn [currentPage appState] in *.
  unfold click_next_page, click_previous_page. cbn [currentPage appState].
  destruct (isProcessing st) eqn:Ep.
  { rewrite !orb_true_r. cbn [currentPage appState]. rewrite Ep, !orb_true_r.
    repeat split; try lia; try done.
    - destruct (decide _) as [[_ ?] |]; done.
    - destruct (decide _) as [[_ ?] |]; done. }
  rewrite !orb_false_r.
  destruct (Nat.eqb_spec c (numPages st)) as [En | En];
    destruct (Nat.eqb_spec c 1) as [E1 | E1];
    cbn [currentPage appState setCurrentPage];
    rewrite ?Ep, ?orb_false_r;
    repeat match goal with
           | |- context [decide ?P] => destruct (decide P) as [[? ?] | ?]
           end;
    repeat split; try lia; try done;
    try (exfalso; lia); try (exfalso; tauto).
  all: intros Hlt.
  all: repeat match goal with
              | |- context [(?a =? ?b)%nat] =>
                  destruct (Nat.eqb_spec a b); try (exfalso; lia)
              end;
    cbn [currentPage appState setCurrentPage orb]; try reflexivity;
    try (f_equal; lia).
  all: unfold setCurrentPage;
    cbn [appState currentPage originalPageImage isCustomMargin isRenderingPdf];
    f_equal; lia.
Qed.

(** X14, evaluated on page 1 of the sample document of three pages. *)
Lemma X14_page_navigation_witness :
  currentPage (click_next_page (sample_session 3 [] [])) = 2%nat
  /\ click_previous_page (click_next_page (sample_session 3 [] []))
     = sample_session 3 [] [].
Proof.
  pose proof (X14_page_navigation (sample_session 3 [] [])
                ltac:(cbn; lia)) as (_ & Hn & _ & _ & Hback & _).
  split; [rewrite Hn; reflexivity | apply Hback; cbn; lia].
Defined.

(** ** Colorizing the page on view *)

Lemma handleColorizeCurrent_cases (br : Browser) (s : Session)
    (image : RenderedPage) :
  originalPageImage s = Some image ->
  let result :=
    colorizeImage br (dataUrl image) (getActiveHexColor (appState s))
      (boldness (appState s)) in
  let s' := handleColorizeCurrent br s in
  same_settings (appState s) (appState s')
  /\ isProcessing (appState s') = false
  /\ batchProgress (appState s') = batchProgress (appState s)
  /\ match truthy (error result), truthy (imageUrl result) with
     | Some e, _ =>
         colorizedPages (appState s') = colorizedPages (appState s)
         /\ appError (appState s') = Some e
     | None, Some url =>
         colorizedPages (appState s')
         = <[currentPage s := {| data_imageUrl := url;
                                 data_width := rendered_width image;
                                 data_height := rendered_height image |}]>
             (colorizedPages (appState s))
         /\ appError (appState s') = None
     | None, None =>
         colorizedPages (appState s') = colorizedPages (appState s)
         /\ appError (appState s') = None
     end.
Proof.
  intros Himg. cbn zeta. unfold handleColorizeCurrent. rewrite Himg.
  destruct (truthy (error _)) as [e |]; [| destruct (truthy (imageUrl _)) as [url |]];
    cbn; unfold same_settings; cbn; tauto.
Qed.

(** X15: colorizing the page on view writes no entry of the cache but the
    one of the current page, changes no setting, and moves neither the page
    nor the image on view.  Once the viewer has rendered the current page,
    it does to this page what a batch run does to it: a colorized page is
    stored under the current page number with no error left, a failed
    transform leaves the cache as it was and shows the transform's message;
    and when the page cannot be rendered the viewer keeps the image it had
    and shows "Failed to render page.". *)
Theorem X15_colorize_current (br : Browser) (s : Session) :
  let s' := handleColorizeCurrent br s in
  (forall k, k <> currentPage s ->
     colorizedPages (appState s') !! k = colorizedPages (appState s) !! k)
  /\ same_settings (appState s) (appState s')
  /\ currentPage s' = currentPage s
  /\ originalPageImage s' = originalPageImage s
  /\ (originalPageImage s = None -> s' = s)
  /\ (forall doc, pdfDoc (appState s) = Some doc ->
        let viewed := render_effect br s in
        let done := handleColorizeCurrent br viewed in
        match page_outcome br (appState s) doc (currentPage s) with
        | Colorized d =>
            colorizedPages (appState done)
            = <[currentPage s := d]> (colorizedPages (appState s))
            /\ appError (appState done) = None
        | TransformFailed e =>
            colorizedPages (appState done) = colorizedPages (appState s)
            /\ appError (appState done) = Some e
        | NothingReturned =>
            colorizedPages (appState done) = colorizedPages (appState s)
            /\ appError (appState done) = None
        | RenderFailed =>
            originalPageImage viewed = originalPageImage s
            /\ appError (appState viewed) = Some "Failed to render page."%string
        end).
Proof.
  cbn zeta.
  assert (originalPageImage s = None -> handleColorizeCurrent br s = s) as Hnone.
  { intros E. unfold handleColorizeCurrent. by rewrite E. }
  destruct (originalPageImage s) as [image |] eqn:Himg.
  - pose proof (handleColorizeCurrent_cases br s image Himg)
      as (Hsame & _ & _ & Hres). cbn zeta in Hres.
    split; [| split; [exact Hsame | split; [| split; [| split; [done |]]]]].
    + intros k Hk.
      destruct (truthy (error _)) as [e |];
        [| destruct (truthy (imageUrl _)) as [url |]];
        destruct Hres as [-> _]; try done.
      by rewrite lookup_insert_ne.
    + unfold handleColorizeCurrent. by rewrite Himg.
    + unfold handleColorizeCurrent. by rewrite Himg.
    + clear Hres Hsame Hnone. intros doc Hdoc.
      unfold render_effect, renderCurrentPage, page_outcome. rewrite Hdoc.
      destruct (renderPageToImage br doc (currentPage s)
                  (resolutionScale (appState s))) as [rendered |] eqn:Er;
        [| split; [by rewrite <- Himg | reflexivity]].
      match goal with
      | |- context [handleColorizeCurrent br ?v] => set (viewed := v)
      end.
      pose proof (handleColorizeCurrent_cases br viewed rendered eq_refl)
        as (_ & _ & _ & Hres). cbn zeta in Hres.
      change (getActiveHexColor (appState viewed))
        with (getActiveHexColor (appState s)) in Hres.
      change (boldness (appState viewed)) with (boldness (appState s)) in Hres.
      change (colorizedPages (appState viewed))
        with (colorizedPages (appState s)) in Hres.
      change (currentPage viewed) with (currentPage s) in Hres.
      destruct (truthy (error _)) as [e |];
        [| destruct (truthy (imageUrl _)) as [url |]]; exact Hres.
  - rewrite (Hnone eq_refl), Himg.
    split; [done |]. split; [unfold same_settings; tauto |].
    split; [done |]. split; [done |]. split; [done |].
    intros doc Hdoc.
    unfold render_effect, renderCurrentPage, page_outcome. rewrite Hdoc.
    destruct (renderPageToImage br doc (currentPage s)
                (resolutionScale (appState s))) as [rendered |] eqn:Er;
      [| split; [by rewrite <- Himg | reflexivity]].
    match goal with
    | |- context [handleColorizeCurrent br ?v] => set (viewed := v)
    end.
    pose proof (handleColorizeCurrent_cases br viewed rendered eq_refl)
      as (_ & _ & _ & Hres). cbn zeta in Hres.
    change (getActiveHexColor (appState viewed))
      with (getActiveHexColor (appState s)) in Hres.
    change (boldness (appState viewed)) with (boldness (appState s)) in Hres.
    change (colorizedPages (appState viewed))
      with (colorizedPages (appState s)) in Hres.
    change (currentPage viewed) with (currentPage s) in Hres.
    destruct (truthy (error _)) as [e |];
      [| destruct (truthy (imageUrl _)) as [url |]]; exact Hres.
Qed.

(** ** The image of one page *)

Lemma string_of_uint_digits (d : Decimal.uint) :
  Forall (fun c => c <> "_"%char)
    (list_ascii_of_string (DecimalString.NilEmpty.string_of_uint d)).
Proof.
  induction d; cbn [DecimalString.NilEmpty.string_of_uint list_ascii_of_string];
    [constructor | ..]; (constructor; [discriminate | exact IHd]).
Qed.

Lemma append_underscore_inj (a b r r' : string) :
  Forall (fun c => c <> "_"%char) (list_ascii_of_string a) ->
  Forall (fun c => c <> "_"%char) (list_ascii_of_string b) ->
  (a ++ String "_" r)%string = (b ++ String "_" r')%string ->
  a = b /\ r = r'.
Proof.
  revert b. induction a as [| c a IH]; intros [| c' b] Ha Hb E;
    cbn [String.append list_ascii_of_string] in *.
  - by injection E as <-.
  - injection E as <- _. by inversion Hb.
  - injection E as -> _. by inversion Ha.
  - injection E as <- E. inversion Ha; inversion Hb; subst.
    destruct (IH b) as [-> ->]; done.
Qed.

Lemma theme_id_inj (t t' : ColorTheme) :
  (theme_id t ++ ".png")%string = (theme_id t' ++ ".png")%string -> t = t'.
Proof. destruct t, t'; first [reflexivity | discriminate]. Qed.

Lemma string_of_nat_inj (n n' : nat) :
  DecimalString.NilEmpty.string_of_uint (Nat.to_uint n)
  = DecimalString.NilEmpty.string_of_uint (Nat.to_uint n') ->
  n = n'.
Proof.
  intros E.
  assert (Some (Nat.to_uint n) = Some (Nat.to_uint n')) as E'
    by (rewrite <- !DecimalString.NilEmpty.usu; by rewrite E).
  injection E' as E'.
  rewrite <- (DecimalNat.Unsigned.of_to n), <- (DecimalNat.Unsigned.of_to n').
  by rewrite E'.
Qed.

(** X16: the image download offers a link exactly when the current page has
    a colorized artifact, and the link is to the image of this artifact; so
    right after the page on view was colorized it is the new image, and
    after a reset there is none.  The file name tells the page and the
    theme: two links of the same name are for the same page number and the
    same theme. *)
Theorem X16_download_png (br : Browser) (s : Session) :
  (handleDownloadPNG s = None
   <-> colorizedPages (appState s) !! currentPage s = None)
  /\ (forall href name, handleDownloadPNG s = Some (href, name) ->
        exists d, colorizedPages (appState s) !! currentPage s = Some d
                  /\ data_imageUrl d = href)
  /\ (forall image url,
        originalPageImage s = Some image ->
        colorizeImage br (dataUrl image) (getActiveHexColor (appState s))
          (boldness (appState s))
        = {| imageUrl := Some url; error := None |} ->
        url <> ""%string ->
        exists name, handleDownloadPNG (handleColorizeCurrent br s)
                     = Some (url, name))
  /\ handleDownloadPNG (handleReset s) = None
  /\ (forall s2 href href2 name,
        handleDownloadPNG s = Some (href, name) ->
        handleDownloadPNG s2 = Some (href2, name) ->
        currentPage s = currentPage s2
        /\ selectedTheme (appState s) = selectedTheme (appState s2)).
Proof.
  split; [| split; [| split; [| split]]].
  - unfold handleDownloadPNG. by destruct (_ !! _).
  - intros href name. unfold handleDownloadPNG.
    destruct (_ !! _) as [d |]; [| done]. intros [= <- _]. by exists d.
  - intros image url Himg Hres Hurl.
    pose proof (handleColorizeCurrent_cases br s image Himg)
      as ((_ & _ & _ & Htheme & _) & _ & _ & Hcase).
    cbn zeta in Hcase. rewrite Hres in Hcase. cbn [error imageUrl truthy] in Hcase.
    destruct (String.eqb_spec url "") as [| _]; [done |].
    destruct Hcase as [Hcache _].
    assert (currentPage (handleColorizeCurrent br s) = currentPage s) as Hcur
      by (unfold handleColorizeCurrent; by rewrite Himg).
    unfold handleDownloadPNG. rewrite Hcur, Hcache, lookup_insert.
    destruct (decide _); [| done]. by eexists.
  - reflexivity.
  - intros s2 href href2 name. unfold handleDownloadPNG.
    destruct (_ !! _) as [d |]; [| done].
    destruct (_ !! _) as [d2 |]; [| done].
    intros [= _ <-] [= _ E].
    change ((DecimalString.NilEmpty.string_of_uint (Nat.to_uint (currentPage s2))
             ++ String "_" (theme_id (selectedTheme (appState s2)) ++ ".png"))
            = (DecimalString.NilEmpty.string_of_uint (Nat.to_uint (currentPage s))
               ++ String "_" (theme_id (selectedTheme (appState s)) ++ ".png")))%string
      in E.
    apply append_underscore_inj in E as [En Et];
      [| apply string_of_uint_digits ..].
    split; [symmetry; by apply string_of_nat_inj | symmetry; by apply theme_id_inj].
Qed.

(** ** Reset and upload *)

(** X17: after a reset nothing is left to work on: neither download gives
    anything, colorizing the page on view, a batch run and the viewer's
    re-render leave the session as it is, the theme is black with the
    default settings, and a second reset changes nothing.  The reset does
    not clear the page count, the custom colour and the two busy flags. *)
Theorem X17_reset (br : Browser) (s : Session) :
  let r := handleReset s in
  handleDownloadPDF (appState r) = NoDownload
  /\ handleDownloadPNG r = None
  /\ handleColorizeCurrent br r = r
  /\ colorize_all br r = r
  /\ render_effect br r = r
  /\ handleReset r = r
  /\ (getActiveHexColor (appState r) = "#000000"%string
      /\ boldness (appState r) = 60%Q /\ resolutionScale (appState r) = 3%Q
      /\ marginPercent (appState r) = 0%Q /\ currentPage r = 1%nat
      /\ appError (appState r) = None)
  /\ (numPages (appState r) = numPages (appState s)
      /\ customColorHex (appState r) = customColorHex (appState s)
      /\ isProcessing (appState r) = isProcessing (appState s)
      /\ isRenderingPdf r = isRenderingPdf s).
Proof.
  cbn zeta. repeat split.
Qed.

(** X18: an upload without a file, or of a file that is not of type
    application/pdf, changes nothing.  When the PDF cannot be loaded, the
    session takes the name of the new file and the message "Failed to load
    PDF. ..." but keeps the document, the page count, the cache and the page
    it had.  When it loads, the session is on page 1 of the new document,
    with its page count, an empty cache and no batch progress; the image on
    view is the render of page 1, or the previous one with the message
    "Failed to render page." when page 1 cannot be rendered.  In every case
    the settings of colour, boldness, resolution and margin are kept and the
    viewer is no longer marked as rendering. *)
Theorem X18_upload (br : Browser)
    (getDocument : string -> option PDFDocumentProxy)
    (uploadedFile : option UploadedFile) (s : Session) :
  let s' := handleFileUpload br getDocument uploadedFile s in
  match uploadedFile with
  | None => s' = s
  | Some f =>
      if String.eqb (file_type f) "application/pdf" then
        (fileName (appState s') = Some (file_name f)
         /\ isRenderingPdf s' = false
         /\ (selectedTheme (appState s') = selectedTheme (appState s)
             /\ customColorHex (appState s') = customColorHex (appState s)
             /\ boldness (appState s') = boldness (appState s)
             /\ resolutionScale (appState s') = resolutionScale (appState s)
             /\ marginPercent (appState s') = marginPercent (appState s)))
        /\ match getDocument (file_bytes f) with
           | None =>
               appError (appState s')
               = Some "Failed to load PDF. Please ensure it is a valid PDF file."%string
               /\ pdfDoc (appState s') = pdfDoc (appState s)
               /\ numPages (appState s') = numPages (appState s)
               /\ colorizedPages (appState s') = colorizedPages (appState s)
               /\ currentPage s' = currentPage s
               /\ originalPageImage s' = originalPageImage s
           | Some doc =>
               pdfDoc (appState s') = Some doc
               /\ numPages (appState s') = doc_numPages doc
               /\ colorizedPages (appState s') = ∅
               /\ currentPage s' = 1%nat
               /\ batchProgress (appState s') = None
               /\ handleDownloadPDF (appState s') = NoDownload
               /\ match renderPageToImage br doc 1 (resolutionScale (appState s)) with
                  | Some rendered =>
                      originalPageImage s' = Some rendered
                      /\ appError (appState s') = None
                  | None =>
                      originalPageImage s' = originalPageImage s
                      /\ appError (appState s') = Some "Failed to render page."%string
                  end
           end
      else s' = s
  end.
Proof.
  cbn zeta. destruct uploadedFile as [f |]; [| reflexivity].
  unfold handleFileUpload, loadPdfDocument.
  destruct (String.eqb (file_type f) "application/pdf"); [| reflexivity].
  cbn [negb].
  destruct (getDocument (file_bytes f)) as [doc |].
  - unfold renderCurrentPage.
    destruct (renderPageToImage br doc 1 (resolutionScale (appState s)));
      cbn; repeat split.
  - cbn. repeat split.
Qed.

Lemma handleColorizeAll_numPages (br : Browser) (st : AppState) :
  numPages (run_state (handleColorizeAll br st)) = numPages st.
Proof.
  destruct (pdfDoc st) as [doc |] eqn:Hdoc.
  - by destruct (handleColorizeAll_same_settings br st doc Hdoc)
      as (_ & _ & -> & _).
  - unfold handleColorizeAll. by rewrite Hdoc.
Qed.

(** X19: the page numbers of a session stay those of its document.  When
    every cached page and the current page lie in 1..numPages, they still do
    after each control and handler of the viewer: the theme and colour
    controls, the page buttons, the margin controls, colorizing the page on
    view, a batch run, the viewer's re-render, a reset, and an upload
    (pdf.js giving documents of at least one page); and a successful upload
    makes it so whatever the session was. *)
Theorem X19_page_numbers_invariant (br : Browser)
    (getDocument : string -> option PDFDocumentProxy)
    (s : Session) :
  (forall bytes doc, getDocument bytes = Some doc -> (1 <= doc_numPages doc)%nat) ->
  (session_ok s ->
   (forall t, session_ok (click_theme t s))
   /\ (forall v, session_ok (pick_custom_color v s))
   /\ session_ok (click_previous_page s)
   /\ session_ok (click_next_page s)
   /\ (forall o, session_ok (select_margin o s))
   /\ (forall x, session_ok (type_custom_margin x s))
   /\ session_ok (handleColorizeCurrent br s)
   /\ session_ok (colorize_all br s)
   /\ session_ok (render_effect br s)
   /\ session_ok (handleReset s)
   /\ (forall f, session_ok (handleFileUpload br getDocument f s)))
  /\ (forall f doc,
        file_type f = "application/pdf"%string ->
        getDocument (file_bytes f) = Some doc ->
        session_ok (handleFileUpload br getDocument (Some f) s)).
Proof.
  intros Hdocs.
  assert (forall f doc,
            file_type f = "application/pdf"%string ->
            getDocument (file_bytes f) = Some doc ->
            session_ok (handleFileUpload br getDocument (Some f) s)) as Hup.
  { intros f doc Hty Hget. specialize (Hdocs _ _ Hget).
    unfold handleFileUpload, loadPdfDocument.
    rewrite Hty, String.eqb_refl, Hget. cbn [negb].
    unfold renderCurrentPage.
    destruct (renderPageToImage _ _ _ _); unfold session_ok; cbn;
      (split; [intros k [v Hv]; by rewrite lookup_empty in Hv | lia]). }
  split; [| exact Hup].
  intros [Hkeys Hcur].
  assert (forall f : AppState -> AppState,
            (forall st, colorizedPages (f st) = colorizedPages st) ->
            (forall st, numPages (f st) = numPages st) ->
            session_ok (with_app f s)) as Hframe.
  { intros f Hc Hn. unfold session_ok, with_app. cbn [appState currentPage].
    rewrite Hc, Hn. by split. }
  split; [intros t; by apply Hframe |].
  split; [intros v; by apply Hframe |].
  split.
  { unfold session_ok, click_previous_page.
    destruct (_ || _); [by split |]. cbn [setCurrentPage appState currentPage].
    split; [done | lia]. }
  split.
  { unfold session_ok, click_next_page.
    destruct (_ || _); [by split |]. cbn [setCurrentPage appState currentPage].
    split; [done | lia]. }
  split.
  { intros o. unfold session_ok. destruct o; cbn; by split. }
  split; [intros x; by apply Hframe |].
  split.
  { destruct (originalPageImage s) as [image |] eqn:Himg.
    - pose proof (handleColorizeCurrent_cases br s image Himg)
        as ((_ & _ & Hn & _) & _ & _ & Hcase). cbn zeta in Hcase.
      assert (currentPage (handleColorizeCurrent br s) = currentPage s) as Hc
        by (unfold handleColorizeCurrent; by rewrite Himg).
      unfold session_ok. rewrite Hc, Hn. split; [| done].
      intros k.
      destruct (truthy (error _)) as [e |];
        [| destruct (truthy (imageUrl _)) as [url |]];
        destruct Hcase as [-> _]; try apply Hkeys.
      destruct (decide (k = currentPage s)) as [-> | Hne]; [done |].
      rewrite lookup_insert_ne by done. apply Hkeys.
    - unfold handleColorizeCurrent. rewrite Himg. by split. }
  split.
  { unfold session_ok, colorize_all, with_app. cbn [appState currentPage].
    rewrite handleColorizeAll_numPages. split; [| done].
    intros k. rewrite handleColorizeAll_cache.
    destruct (pdfDoc (appState s)) as [doc |]; [| apply Hkeys].
    pose proof (first_render_failure_bounds br (appState s) doc
                  (numPages (appState s)) 1) as Hb.
    destruct (decide _) as [Hk |]; [| apply Hkeys]. intros _. lia. }
  split.
  { unfold render_effect, renderCurrentPage.
    destruct (pdfDoc (appState s)) as [doc |]; [| by split].
    destruct (renderPageToImage _ _ _ _); by split. }
  split.
  { unfold session_ok. cbn. split; [| lia].
    intros k [v Hv]. by rewrite lookup_empty in Hv. }
  intros [f |]; [| by split].
  destruct (String.eqb_spec (file_type f) "application/pdf") as [Hty | Hty].
  - destruct (getDocument (file_bytes f)) as [doc |] eqn:Hget;
      [by apply (Hup f doc) |].
    unfold handleFileUpload, loadPdfDocument.
    rewrite Hty, String.eqb_refl, Hget. cbn [negb].
    unfold session_ok. cbn. by split.
  - unfold handleFileUpload.
    destruct (String.eqb_spec (file_type f) "application/pdf"); [done |].
    by split.
Qed.

(** X19, evaluated: the sample session of three pages after a batch run,
    and after the upload of a document of three pages. *)
Lemma X19_page_numbers_invariant_witness :
  session_ok (colorize_all sample_browser (sample_session 3 [] []))
  /\ session_ok
       (handleFileUpload sample_browser (fun _ => Some (sample_doc 3 [] []))
          (Some {| file_name := "scan.pdf"; file_type := "application/pdf";
                   file_bytes := "%PDF..." |})
          (handleReset (sample_session 3 [] []))).
Proof.
  assert (forall (bytes : string) doc,
            (fun _ : string => Some (sample_doc 3 [] [])) bytes = Some doc ->
            (1 <= doc_numPages doc)%nat) as Hdocs.
  { intros bytes doc [= <-]. cbn. lia. }
  split.
  - apply (proj1 (X19_page_numbers_invariant sample_browser
                    (fun _ => Some (sample_doc 3 [] []))
                    (sample_session 3 [] []) Hdocs)).
    split; [| cbn; lia].
    intros k [v Hv]. cbn [sample_session appState sample_state colorizedPages] in Hv.
    by rewrite lookup_empty in Hv.
  - apply (proj2 (X19_page_numbers_invariant sample_browser
                    (fun _ => Some (sample_doc 3 [] []))
                    (handleReset (sample_session 3 [] [])) Hdocs)
             {| file_name := "scan.pdf"; file_type := "application/pdf";
                file_bytes := "%PDF..." |} (sample_doc 3 [] []));
      reflexivity.
Defined.
